(** * AlloCine scraper: a shallow embedding of [scraper.py]

    The development follows the script top-down: Python strings, the
    BeautifulSoup document tree and its search API, the ten
    [_get_movie_*] rules, the card loop of [_parse_list_page] with its
    bare [try/except], the shared [dataset] frame and its CSV dump, and
    the driver loop [start_scraping_movies].

    Conventions.
    - A Python [str] is a [string]; its characters are the code points
      below 256, so that [\d] is exactly [0-9] and [str.isspace] is the
      set spelled out in [Py.isspace].
    - A response body is identified with the tree that
      [BeautifulSoup(page.content, "html.parser")] builds from it.
    - What the script cannot decide is a field of [Scraper.world]: the
      answer to a request, whether the output file can be opened.
    - Logging is left out: it changes nothing that is observed here. *)

From Stdlib Require Import Ascii String.
From stdpp Require Import gmap strings list pretty.

(** ** Python strings *)

Module Py.

(** [\d] on a [str] pattern, restricted to code points below 256. *)
Definition isdigit (c : ascii) : bool :=
  let n := nat_of_ascii c in (48 <=? n)%nat && (n <=? 57)%nat.

(** [str.isspace] on one character (code points below 256). *)
Definition isspace (c : ascii) : bool :=
  let n := nat_of_ascii c in
  ((9 <=? n)%nat && (n <=? 13)%nat)
  || ((28 <=? n)%nat && (n <=? 32)%nat)
  || (n =? 133)%nat || (n =? 160)%nat.

Fixpoint lstrip (s : string) : string :=
  match s with
  | String c s' => if isspace c then lstrip s' else s
  | EmptyString => EmptyString
  end.

Definition rstrip (s : string) : string := String.rev (lstrip (String.rev s)).

(** [s.strip()] *)
Definition strip (s : string) : string := rstrip (lstrip s).

Fixpoint startswith (p s : string) : bool :=
  match p, s with
  | EmptyString, _ => true
  | String a p', String b s' => if Ascii.eqb a b then startswith p' s' else false
  | String _ _, EmptyString => false
  end.

Definition endswith (suf s : string) : bool :=
  startswith (String.rev suf) (String.rev s).

(** [sub in s] *)
Fixpoint contains (sub s : string) : bool :=
  startswith sub s
  || match s with
     | String _ s' => contains sub s'
     | EmptyString => false
     end.

(** [sep.join(l)] *)
Definition join (sep : string) (l : list string) : string := String.concat sep l.

(** [re.sub] with the pattern [\D] and an empty replacement *)
Fixpoint re_sub_nondigit (s : string) : string :=
  match s with
  | String c s' => if isdigit c then String c (re_sub_nondigit s') else re_sub_nondigit s'
  | EmptyString => EmptyString
  end.

(** [re.compile(r".*" + suf + "$").search(s)], for a literal [suf]
    without metacharacters: the match may start at any position, and
    [$] also matches just before a final newline. *)
Definition re_search_suffix (suf s : string) : bool :=
  endswith suf s || endswith (suf +:+ String "010"%char EmptyString) s.

(** Every character of [s] satisfies [p]. *)
Fixpoint all_chars (p : ascii → bool) (s : string) : bool :=
  match s with
  | String c s' => p c && all_chars p s'
  | EmptyString => true
  end.

(** [s[-n:]] for [n > 0] *)
Definition last_chars (n : nat) (s : string) : string :=
  String.rev (String.substring 0 n (String.rev s)).

(** The exceptions that the modelled code can meet. *)
Inductive exn :=
| AttributeError | TypeError | KeyError | ValueError
| OSError | RequestException | Exception (msg : string).

Inductive result (A : Type) :=
| Ok (a : A)
| Raise (e : exn).
Arguments Ok {A} a.
Arguments Raise {A} e.

(** Sequencing: the first exception raised propagates. *)
Global Instance result_ret : MRet result := fun _ a => Ok a.
Global Instance result_bind : MBind result := fun _ _ k r =>
  match r with
  | Ok a => k a
  | Raise e => Raise e
  end.

End Py.

(** ** The BeautifulSoup tree and its search methods *)

Module Bs4.
Import Py.

(** An attribute value: a plain string, or the token list of a
    multi-valued attribute such as [class]. *)
Inductive attr_value :=
| AStr (s : string)
| AList (l : list string).

(** [Tag], [NavigableString], and the string nodes that [.text]
    leaves out ([Comment] and the other special strings). *)
#[warnings="-register-all"]
Inductive node :=
| Tag (name : string) (attrs : gmap string attr_value) (contents : list node)
| NavigableString (s : string)
| Comment (s : string).

(** An element as a search hands it out: the node together with the
    siblings that follow it under its parent. *)
Definition element : Type := node * list node.

Definition contents (n : node) : list node :=
  match n with
  | Tag _ _ cs => cs
  | _ => []
  end.

(** [tag.descendants], in document order: each child, then what is
    below it, then the children after it. *)
Fixpoint descendants (t : node) : list element :=
  match t with
  | Tag _ _ cs =>
      (fix walk (ns : list node) : list element :=
         match ns with
         | [] => []
         | n :: rest => (n, rest) :: descendants n ++ walk rest
         end) cs
  | _ => []
  end.

(** [tag.text]: the [NavigableString]s below the tag, concatenated. *)
Fixpoint text (t : node) : string :=
  match t with
  | Tag _ _ cs =>
      (fix walk (ns : list node) : string :=
         match ns with
         | [] => EmptyString
         | n :: rest => text n +:+ walk rest
         end) cs
  | NavigableString s => s
  | Comment _ => EmptyString
  end.

(** What a search compares an attribute with: a string, or one of the
    compiled patterns [.*suf$] of the script. *)
Inductive matcher :=
| MStr (s : string)
| MRegexSuffix (suf : string).

Definition match_str (m : matcher) (s : string) : bool :=
  match m with
  | MStr t => String.eqb s t
  | MRegexSuffix suf => re_search_suffix suf s
  end.

(** [SoupStrainer._matches] on an attribute value: a token list
    matches when one token does, or when the tokens joined by a space
    do; a missing attribute matches only a falsy pattern. *)
Definition _matches (v : option attr_value) (m : matcher) : bool :=
  match v with
  | None => match m with MStr EmptyString => true | _ => false end
  | Some (AStr s) => match_str m s
  | Some (AList l) => existsb (match_str m) l || match_str m (join " " l)
  end.

(** The searches of the script: tag names and an optional constraint on
    the [class] attribute. *)
Record selector := Selector {
  sel_names : list string;
  sel_class : option matcher
}.

Definition search_tag (sel : selector) (n : node) : bool :=
  match n with
  | Tag name attrs _ =>
      existsb (String.eqb name) (sel_names sel)
      && match sel_class sel with
         | None => true
         | Some m => _matches (attrs !! "class") m
         end
  | _ => false
  end.

(** [tag.find_all(...)] and [tag.find(...)] *)
Definition find_all (sel : selector) (t : node) : list element :=
  filter (fun e : element => search_tag sel (fst e) = true) (descendants t).

Definition find (sel : selector) (t : node) : option element :=
  head (find_all sel t).

(** [tag()] : every tag below [tag]. *)
Definition is_tag (n : node) : bool :=
  match n with Tag _ _ _ => true | _ => false end.

Definition call_tag (t : node) : list node :=
  fst <$> filter (fun e : element => is_tag (fst e) = true) (descendants t).

(** [element.next_sibling] *)
Definition next_sibling (e : element) : option node := head (snd e).

(** [tag[key]] *)
Definition getitem (t : node) (key : string) : result attr_value :=
  match t with
  | Tag _ attrs _ =>
      match attrs !! key with
      | Some v => Ok v
      | None => Raise KeyError
      end
  | _ => Raise TypeError
  end.

End Bs4.

(** ** The [csv] writer behind [DataFrame.to_csv], and a reader *)

Module Csv.

Definition dquote : ascii := ascii_of_nat 34.
Definition comma : ascii := ascii_of_nat 44.
Definition newline : ascii := ascii_of_nat 10.
Definition cr : ascii := ascii_of_nat 13.

(** The characters that make [QUOTE_MINIMAL] quote a field: the
    delimiter, the quote character and the line terminator; whether a
    carriage return counts depends on the version of the module, hence
    [quote_cr]. *)
Definition special (quote_cr : bool) (c : ascii) : bool :=
  Ascii.eqb c comma || Ascii.eqb c dquote || Ascii.eqb c newline
  || (quote_cr && Ascii.eqb c cr).

Fixpoint has_special (quote_cr : bool) (s : string) : bool :=
  match s with
  | String c s' => special quote_cr c || has_special quote_cr s'
  | EmptyString => false
  end.

(** [doublequote=True]: a quote character inside a field is doubled. *)
Fixpoint double_quotes (s : string) : string :=
  match s with
  | String c s' =>
      if Ascii.eqb c dquote
      then String dquote (String dquote (double_quotes s'))
      else String c (double_quotes s')
  | EmptyString => EmptyString
  end.

Definition quote_field (quote_cr : bool) (s : string) : string :=
  if has_special quote_cr s
  then String dquote (double_quotes s +:+ String dquote EmptyString)
  else s.

(** [writer.writerow(fields)] with the line terminator of a POSIX
    system; a record made of one empty field is written as two quotes. *)
Definition writerow (quote_cr : bool) (fields : list string) : string :=
  match fields with
  | [EmptyString] => String dquote (String dquote EmptyString)
  | _ => String.concat (String comma EmptyString) (quote_field quote_cr <$> fields)
  end +:+ String newline EmptyString.

Definition writerows (quote_cr : bool) (rows : list (list string)) : string :=
  String.concat EmptyString (writerow quote_cr <$> rows).

(** A reader for that format. An unquoted empty field is read as
    [None]; every other field as its text. *)
Inductive mode := FieldStart | Bare | Quoted | QuoteSeen.

Definition snoc (s : string) (c : ascii) : string := s +:+ String c EmptyString.

Fixpoint reader (m : mode) (field : string) (row : list (option string))
    (rows : list (list (option string))) (input : string)
    : option (list (list (option string))) :=
  match input with
  | EmptyString =>
      match m, row with
      | FieldStart, [] => Some rows
      | _, _ => None
      end
  | String c rest =>
      match m with
      | FieldStart =>
          if Ascii.eqb c dquote then reader Quoted EmptyString row rows rest
          else if Ascii.eqb c comma then reader FieldStart EmptyString (row ++ [None]) rows rest
          else if Ascii.eqb c newline then reader FieldStart EmptyString [] (rows ++ [row ++ [None]]) rest
          else reader Bare (String c EmptyString) row rows rest
      | Bare =>
          if Ascii.eqb c comma then reader FieldStart EmptyString (row ++ [Some field]) rows rest
          else if Ascii.eqb c newline
          then reader FieldStart EmptyString [] (rows ++ [row ++ [Some field]]) rest
          else reader Bare (snoc field c) row rows rest
      | Quoted =>
          if Ascii.eqb c dquote then reader QuoteSeen field row rows rest
          else reader Quoted (snoc field c) row rows rest
      | QuoteSeen =>
          if Ascii.eqb c dquote then reader Quoted (snoc field c) row rows rest
          else if Ascii.eqb c comma then reader FieldStart EmptyString (row ++ [Some field]) rows rest
          else if Ascii.eqb c newline
          then reader FieldStart EmptyString [] (rows ++ [row ++ [Some field]]) rest
          else None
      end
  end.

Definition read (input : string) : option (list (list (option string))) :=
  reader FieldStart EmptyString [] [] input.

(** What the reader makes of a field whose text was [s]. *)
Definition nonempty (s : string) : option string :=
  match s with
  | EmptyString => None
  | _ => Some s
  end.

Definition read_back (fields : list string) : list (option string) :=
  nonempty <$> fields.

End Csv.

(** ** The scraper *)

Module Scraper.
Import Py Bs4.

(** A scraped value: a [str], or (from [tag.strip()] on a tag that
    has a [<strip>] descendant) a [ResultSet]. *)
Inductive pyobj :=
| PStr (s : string)
| PResultSet (l : list node).

(** One cell of a row; [None] is Python's [None], the missing marker. *)
Definition cell : Type := option pyobj.

Definition allocine_url : string := "https://www.allocine.fr/films/?page=".

Definition movie_infos : list string :=
  [ "id"; "title"; "release_date"; "duration"; "genres";
    "directors"; "actors"; "press_rating"; "spec_rating"; "summary" ].

(** *** Attribute access on what a search returned *)

(** [x.attr] where [x] may be [None] *)
Definition dot {A} (o : option A) : result A :=
  match o with
  | Some a => Ok a
  | None => Raise AttributeError
  end.

(** [x[key]] where [x] may be [None] *)
Definition subscript (o : option element) (key : string) : result attr_value :=
  match o with
  | Some e => getitem (fst e) key
  | None => Raise TypeError
  end.

(** [re.sub] of [\D] on an attribute value: a list is not a string *)
Definition re_sub_D (v : attr_value) : result string :=
  match v with
  | AStr s => Ok (re_sub_nondigit s)
  | AList _ => Raise TypeError
  end.

(** [node.strip()]: [str.strip] on a string node; on a tag, [.strip]
    is [find("strip")], and calling its result is [find_all()] on a tag
    and a [TypeError] on [None]. *)
Definition call_strip (n : node) : result pyobj :=
  match n with
  | NavigableString s | Comment s => Ok (PStr (strip s))
  | Tag _ _ _ =>
      match find (Selector ["strip"] None) n with
      | Some t => Ok (PResultSet (call_tag (fst t)))
      | None => Raise TypeError
      end
  end.

(** *** The searches *)

Definition by_class (name cls : string) : selector :=
  Selector [name] (Some (MStr cls)).

Definition sel_card : selector := by_class "li" "mdl".
Definition sel_content_title : selector := by_class "div" "content-title".
Definition sel_date : selector := by_class "span" "date".
Definition sel_spacer : selector := by_class "span" "spacer".
Definition sel_meta_info : selector := by_class "div" "meta-body-item meta-body-info".
Definition sel_genre : selector := Selector ["span"] (Some (MRegexSuffix "==")).
Definition sel_direction : selector :=
  by_class "div" "meta-body-item meta-body-direction light".
Definition sel_blue_link : selector :=
  Selector ["a"; "span"] (Some (MRegexSuffix "blue-link")).
Definition sel_actor : selector := by_class "div" "meta-body-item meta-body-actor light".
Definition sel_a_span : selector := Selector ["a"; "span"] None.
Definition sel_rating_item : selector := by_class "div" "rating-item".
Definition sel_note : selector := by_class "span" "stareval-note".
Definition sel_synopsis : selector := by_class "div" "synopsis".

(** *** The ten rules *)

Definition rule : Type := node → result cell.

Definition texts (l : list element) : list string := (fun e => text (fst e)) <$> l.

Definition _get_movie_id : rule := fun movie =>
  div ← dot (find sel_content_title movie);
  href ← subscript (find (Selector ["a"] None) (fst div)) "href";
  movie_id ← re_sub_D href;
  Ok (Some (PStr movie_id)).

Definition _get_movie_title : rule := fun movie =>
  div ← dot (find sel_content_title movie);
  Ok (Some (PStr (strip (text (fst div))))).

Definition _get_movie_release_date : rule := fun movie =>
  span ← dot (find sel_date movie);
  Ok (Some (PStr (strip (text (fst span))))).

Definition _get_movie_duration : rule := fun movie =>
  span ← dot (find sel_spacer movie);
  sibling ← dot (next_sibling span);
  movie_duration ← call_strip sibling;
  Ok (Some movie_duration).

Definition _get_movie_genres : rule := fun movie =>
  div ← dot (find sel_meta_info movie);
  let movie_genres := texts (find_all sel_genre (fst div)) in
  Ok (Some (PStr (join ", " movie_genres))).

Definition _get_movie_directors : rule := fun movie =>
  div ← dot (find sel_direction movie);
  let movie_directors := texts (find_all sel_blue_link (fst div)) in
  Ok (Some (PStr (join ", " movie_directors))).

Definition _get_movie_actors : rule := fun movie =>
  div ← dot (find sel_actor movie);
  let movie_actors := tail (texts (find_all sel_a_span (fst div))) in
  Ok (Some (PStr (join ", " movie_actors))).

(** The loop shared by the two rating rules: the first block whose
    text contains the label decides. *)
Fixpoint rating_loop (label : string) (movie_ratings : list element) : result cell :=
  match movie_ratings with
  | [] => Ok None
  | ratings :: rest =>
      if contains label (text (fst ratings))
      then note ← dot (find sel_note (fst ratings));
           Ok (Some (PStr (text (fst note))))
      else rating_loop label rest
  end.

Definition _get_movie_press_rating : rule := fun movie =>
  rating_loop "Presse" (find_all sel_rating_item movie).

Definition _get_movie_spec_rating : rule := fun movie =>
  rating_loop "Spectateurs" (find_all sel_rating_item movie).

Definition _get_movie_summary : rule := fun movie =>
  div ← dot (find sel_synopsis movie);
  Ok (Some (PStr (strip (text (fst div))))).

(** The methods of the class that [getattr(self, name)] can reach. *)
Definition methods : gmap string rule :=
  list_to_map
    [ ("_get_movie_id", _get_movie_id);
      ("_get_movie_title", _get_movie_title);
      ("_get_movie_release_date", _get_movie_release_date);
      ("_get_movie_duration", _get_movie_duration);
      ("_get_movie_genres", _get_movie_genres);
      ("_get_movie_directors", _get_movie_directors);
      ("_get_movie_actors", _get_movie_actors);
      ("_get_movie_press_rating", _get_movie_press_rating);
      ("_get_movie_spec_rating", _get_movie_spec_rating);
      ("_get_movie_summary", _get_movie_summary) ].

Definition getattr_self (name : string) : result rule :=
  match methods !! name with
  | Some m => Ok m
  | None => Raise AttributeError
  end.

(** The body of the [try]: resolve the method, call it on the card. *)
Definition run_rule (info : string) (movie : node) : result cell :=
  m ← getattr_self ("_get_movie_" +:+ info); m movie.

(** [try: ... except: scraped_info = None] *)
Definition scraped_info (movie : node) (info : string) : cell :=
  match run_rule info movie with
  | Ok v => v
  | Raise _ => None
  end.

(** The inner [for info in self.movie_infos] loop. *)
Definition movie_datas (movie : node) : list cell :=
  scraped_info movie <$> movie_infos.

(** *** The shared frame *)

(** [pd.DataFrame]: the column labels and the rows, in index order. The
    index is the default one, so the label [len(df)] is always new. *)
Record DataFrame := {
  columns : list string;
  rows : list (list cell)
}.

(** [dataset = pd.DataFrame(columns=movie_infos)], a class attribute:
    one frame for the whole process. *)
Definition empty_dataset : DataFrame := {| columns := movie_infos; rows := [] |}.

Definition len (df : DataFrame) : nat := length (rows df).

(** [df.loc[len(df)] = values]: a new last row; pandas refuses a
    list whose length is not the number of columns. *)
Definition loc_append (df : DataFrame) (values : list cell) : result DataFrame :=
  if decide (length values = length (columns df))
  then Ok {| columns := columns df; rows := rows df ++ [values] |}
  else Raise ValueError.

(** *** The world outside the script *)

Record world := {
  (** [requests.get(url)]: the parsed body, or the exception raised *)
  requests_get : string → result node;
  (** whether the file can be opened for writing *)
  can_write : string → bool;
  (** [str] of a [ResultSet] *)
  str_ResultSet : list node → string;
  (** whether the [csv] module quotes a field for a carriage return *)
  csv_quotes_cr : bool
}.

Inductive event :=
| Get (url : string)
| Write (path : string)
| Sleep (secs : Z).

Record state := {
  dataset : DataFrame;
  files : gmap string string;
  trace : list event
}.

Record scraper := {
  number_of_pages : Z;
  dataset_name : string;
  human_pause : Z
}.

(** The text pandas hands to the [csv] writer: [na_rep] (empty) for a
    missing value, the string itself, [str(x)] for another object. *)
Definition csv_value (w : world) (c : cell) : string :=
  match c with
  | None => EmptyString
  | Some (PStr s) => s
  | Some (PResultSet l) => str_ResultSet w l
  end.

Definition csv_record (w : world) (r : list cell) : list string := csv_value w <$> r.

(** [df.to_csv(path, index=False)]: the header, then one record per row,
    without the index. *)
Definition to_csv (w : world) (df : DataFrame) : string :=
  Csv.writerow (csv_quotes_cr w) (columns df)
  +:+ Csv.writerows (csv_quotes_cr w) (csv_record w <$> rows df).

(** Reading a dump back: the first record gives the column labels. *)
Definition read_cell (o : option string) : cell := PStr <$> o.

Definition read_record (r : list (option string)) : list cell := read_cell <$> r.

Definition read_csv (content : string) : option DataFrame :=
  match Csv.read content with
  | Some (header :: records) =>
      (fun cols => {| columns := cols; rows := read_record <$> records |})
        <$> mapM id header
  | _ => None
  end.

(** A cell as it comes back from a dump. *)
Definition reread (w : world) (c : cell) : cell := read_cell (Csv.nonempty (csv_value w c)).

Definition reread_record (w : world) (r : list cell) : list cell := reread w <$> r.

(** The cells that a dump keeps: the missing marker and the non-empty
    strings. *)
Definition plain (c : cell) : Prop :=
  match c with
  | None => True
  | Some (PStr s) => s ≠ EmptyString
  | Some (PResultSet _) => False
  end.

(** *** [__init__] *)

(** The [isinstance] tests are the types of the arguments. *)
Definition __init__ (number_of_pages : Z) (dataset_name : string) (human_pause : Z)
    : result scraper :=
  if bool_decide (number_of_pages < 2)%Z
  then Raise (Exception "number_of_pages must be an integer superior to 1.")
  else if negb (String.eqb (last_chars 4 dataset_name) ".csv")
  then Raise (Exception "dataset_name must have a valid CSV name.")
  else if bool_decide (human_pause < 2)%Z
  then Raise (Exception "human_pause must be an integer superior to 1.")
  else Ok {| number_of_pages := number_of_pages;
             dataset_name := dataset_name;
             human_pause := human_pause |}.

(** *** [_parse_list_page] *)

(** The [for movie in parser.find_all("li", class_="mdl")] loop. *)
Fixpoint card_loop (df : DataFrame) (cards : list element) : DataFrame * result unit :=
  match cards with
  | [] => (df, Ok ())
  | movie :: rest =>
      match loc_append df (movie_datas (fst movie)) with
      | Ok df' => card_loop df' rest
      | Raise e => (df, Raise e)
      end
  end.

Definition csv_path (self : scraper) : string := "files/" +:+ dataset_name self.

Definition _parse_list_page (w : world) (self : scraper) (st : state) (page : node)
    : state * result unit :=
  match card_loop (dataset st) (find_all sel_card page) with
  | (df, Raise e) =>
      ({| dataset := df; files := files st; trace := trace st |}, Raise e)
  | (df, Ok _) =>
      if can_write w (csv_path self)
      then ({| dataset := df;
               files := <[csv_path self := to_csv w df]> (files st);
               trace := trace st ++ [Write (csv_path self)] |}, Ok ())
      else ({| dataset := df; files := files st; trace := trace st |}, Raise OSError)
  end.

(** The records of one page, as the card loop computes them. *)
Definition extract (page : node) : list (list cell) :=
  (fun movie : element => movie_datas (fst movie)) <$> find_all sel_card page.

(** *** [start_scraping_movies] *)

Definition page_url (number : Z) : string := allocine_url +:+ pretty number.

Definition slept (st : state) (secs : Z) : state :=
  {| dataset := dataset st; files := files st; trace := trace st ++ [Sleep secs] |}.

Definition requested (st : state) (url : string) : state :=
  {| dataset := dataset st; files := files st; trace := trace st ++ [Get url] |}.

(** [_get_page]: [requests.get(self.allocine_url + str(page_number))] *)
Definition _get_page (w : world) (st : state) (page_number : Z) : state * result node :=
  (requested st (page_url page_number), requests_get w (page_url page_number)).

(** The body of [for number in range(1, self.number_of_pages)], over
    the numbers still to come. *)
Fixpoint page_loop (w : world) (self : scraper) (numbers : list Z) (st : state)
    : state * result unit :=
  match numbers with
  | [] => (st, Ok ())
  | number :: rest =>
      match _get_page w st number with
      | (st1, Raise e) => (st1, Raise e)
      | (st1, Ok response) =>
          match _parse_list_page w self st1 response with
          | (st2, Raise e) => (st2, Raise e)
          | (st2, Ok _) => page_loop w self rest (slept st2 (human_pause self))
          end
      end
  end.

(** [range(1, n)] *)
Definition range1 (n : Z) : list Z := seqZ 1 (n - 1).

Definition start_scraping_movies (w : world) (self : scraper) (st : state)
    : state * result unit :=
  page_loop w self (range1 (number_of_pages self)) st.

Definition initial_state : state :=
  {| dataset := empty_dataset; files := ∅; trace := [] |}.

(** The URLs requested in a trace, in order. *)
Definition get_urls (tr : list event) : list string :=
  omap (fun ev => match ev with Get url => Some url | _ => None end) tr.


(** [_parse_list_page] called on one page after the other, as the
    driver does; the frame is kept whatever the call returns. *)
Definition process_pages (w : world) (self : scraper) (st : state) (pages : list node)
    : state :=
  foldl (λ st page, fst (_parse_list_page w self st page)) st pages.

(** The number of cards that the card search finds on the pages. *)
Definition detected_cards (pages : list node) : nat :=
  sum_list ((λ page, length (find_all sel_card page)) <$> pages).

(** The round trip in the words of the specification: some way of
    reading the file gives every accumulated frame back. *)
Definition lossless (w : world) (self : scraper) : Prop :=
  ∃ reader : string → option DataFrame,
    ∀ pages : list node,
      let df := dataset (process_pages w self initial_state pages) in
      reader (to_csv w df) = Some df.

(** Purity in the words of the specification: extracting a page leaves
    the state of the program as it was. *)
Definition extraction_is_pure (w : world) (self : scraper) : Prop :=
  ∀ (st : state) (page : node), fst (_parse_list_page w self st page) = st.

(** *** Editing a card *)

(** The card without the first element (in document order) that the
    selector matches, or [None] when nothing matches. *)
Fixpoint prune (sel : selector) (t : node) : option node :=
  match t with
  | Tag name attrs cs =>
      Tag name attrs <$>
        (fix walk (ns : list node) : option (list node) :=
           match ns with
           | [] => None
           | n :: rest =>
               if search_tag sel n then Some rest
               else match prune sel n with
                    | Some n' => Some (n' :: rest)
                    | None => cons n <$> walk rest
                    end
           end) cs
  | _ => None
  end.

Definition remove_first (sel : selector) (t : node) : node :=
  default t (prune sel t).

(** Field independence in the words of the specification, for the
    field [info] whose rule looks for [sel]: without that fragment the
    record is the same, except that the field is the missing marker. *)
Definition field_independent (info : string) (sel : selector) : Prop :=
  ∀ (movie : node) (i : nat),
    movie_infos !! i = Some info →
    movie_datas (remove_first sel movie) = <[i := None]> (movie_datas movie).

End Scraper.

(** ** Sample markup *)

Module Samples.
Import Py Bs4 Scraper.

Definition cls (l : list string) : gmap string attr_value := {[ "class" := AList l ]}.

Definition link (href title : string) : node :=
  Tag "a" (<["href" := AStr href]> (cls ["meta-title-link"])) [NavigableString title].

Definition title_block (href title : string) : node :=
  Tag "div" (cls ["content-title"]) [link href title].

Definition rating_block (label note : string) : node :=
  Tag "div" (cls ["rating-item"])
    [ Tag "span" (cls ["rating-title"]) [NavigableString label];
      Tag "span" (cls ["stareval-note"]) [NavigableString note] ].

Definition person (name : string) : node :=
  Tag "a" (cls ["blue-link"]) [NavigableString name].

Definition actor_block (entries : list node) : node :=
  Tag "div" (cls ["meta-body-item"; "meta-body-actor"; "light"]) entries.

Definition role_label : node := Tag "span" (cls ["light"]) [NavigableString "Avec"].

Definition info_block (entries : list node) : node :=
  Tag "div" (cls ["meta-body-item"; "meta-body-info"]) entries.

Definition card (entries : list node) : node := Tag "li" (cls ["mdl"]) entries.

(** A fully populated card without a press rating. *)
Definition card_full : node :=
  card
    [ title_block "/film/fichefilm_gen_cfilm=123456.html" "Example Movie";
      info_block
        [ Tag "span" (cls ["date"]) [NavigableString "12 juin 2019"];
          Tag "span" (cls ["spacer"]) [NavigableString "/"];
          NavigableString " 1h 45min ";
          Tag "span" (cls ["spacer"]) [NavigableString "/"];
          Tag "span" (cls ["ACrL2ZACrpbG1zL2dlbnJlLTEzMDA4Lw=="]) [NavigableString "Drama"];
          Tag "span" (cls ["ACrL2ZACrpbG1zL2dlbnJlLTEzMDA1Lw=="]) [NavigableString "Comedy"] ];
      Tag "div" (cls ["meta-body-item"; "meta-body-direction"; "light"])
        [ Tag "span" (cls ["light"]) [NavigableString "De"]; person "D" ];
      actor_block [ role_label; person "A"; person "B"; person "C" ];
      rating_block " Spectateurs " "4,0";
      Tag "div" (cls ["synopsis"]) [NavigableString "  A story. "] ].

(** A card with a title and an id only. *)
Definition card_minimal : node := card [ title_block "/film/789.html" "Other Movie" ].

(** Two rating blocks. *)
Definition card_rated : node :=
  card [ rating_block "Presse" "3.5"; rating_block "Spectateurs" "4.0" ].

(** An href with a digit run before the id. *)
Definition card_dated_href : node :=
  card [ title_block "/film/2019/fichefilm_gen_cfilm=123.html" "Dated" ].

(** The actor block holds the role label alone; the info block holds no
    genre span. *)
Definition card_empty_blocks : node :=
  card
    [ title_block "/film/42.html" "Bare";
      info_block [ NavigableString "2020" ];
      actor_block [ role_label ] ].

(** The same card without the actor block and the info block. *)
Definition card_no_blocks : node := card [ title_block "/film/42.html" "Bare" ].

(** An info block laid out as on the site, with white space between its
    elements. *)
Definition card_spaced : node :=
  card
    [ info_block
        [ Tag "span" (cls ["spacer"]) [NavigableString "/"];
          NavigableString " 1h 30min ";
          Tag "span" (cls ["spacer"]) [NavigableString "/"];
          NavigableString " ";
          Tag "span" (cls ["ACrL2ZACrpbG1zL2dlbnJlLTEzMDA1Lw=="]) [NavigableString "Comedy"] ] ].

(** [card_minimal] with the href of its link lost. *)
Definition card_minimal_no_href : node :=
  card [ Tag "div" (cls ["content-title"])
           [ Tag "a" (cls ["meta-title-link"]) [NavigableString "Other Movie"] ] ].

Definition soup (cards : list node) : node :=
  Tag "[document]" ∅ [ Tag "ul" ∅ cards ].

Definition page_two_cards : node := soup [card_full; card_minimal].

(** A world that serves the same page under every number. *)
Definition one_page_world (page : node) : world :=
  {| requests_get := fun _ => Ok page;
     can_write := fun _ => true;
     str_ResultSet := fun _ => "[]";
     csv_quotes_cr := true |}.

(** The frame that holds the records of the given cards. *)
Definition frame_of (cards : list node) : DataFrame :=
  {| columns := movie_infos; rows := movie_datas <$> cards |}.

Definition allocine : scraper :=
  {| number_of_pages := 3; dataset_name := "allocine.csv"; human_pause := 10 |}.

(** A second scraper, with a file of its own. *)
Definition other_scraper : scraper :=
  {| number_of_pages := 2; dataset_name := "other.csv"; human_pause := 2 |}.


(** A world in which no file can be opened for writing. *)
Definition readonly_world (page : node) : world :=
  {| requests_get := fun _ => Ok page;
     can_write := fun _ => false;
     str_ResultSet := fun _ => "[]";
     csv_quotes_cr := true |}.

(** The first block labelled "Presse" has no note; the second has one. *)
Definition card_note_lost : node :=
  card
    [ Tag "div" (cls ["rating-item"])
        [ Tag "span" (cls ["rating-title"]) [NavigableString "Presse"] ];
      rating_block "Presse" "2.0" ].

(** One block carries both labels. *)
Definition card_both_labels : node :=
  card [ rating_block "Presse et Spectateurs" "3.0"; rating_block "Spectateurs" "4.0" ].

(** A link whose href holds no digit. *)
Definition card_no_digit : node := card [ title_block "/film/unknown.html" "Nameless" ].

(** A title container without a link. *)
Definition card_no_link : node :=
  card [ Tag "div" (cls ["content-title"]) [NavigableString "Plain"] ].

(** A title container that holds white space only. *)
Definition card_blank_title : node :=
  card [ Tag "div" (cls ["content-title"]) [NavigableString "   "];
         Tag "div" (cls ["synopsis"]) [NavigableString "  Two men.  "] ].

(** A spacer followed by a tag, and a spacer that ends its block. *)
Definition card_spacer_then_tag : node :=
  card [ info_block [ Tag "span" (cls ["spacer"]) [NavigableString "/"];
                      Tag "span" (cls ["date"]) [NavigableString "2020"] ] ].

Definition card_spacer_last : node :=
  card [ info_block [ Tag "span" (cls ["spacer"]) [NavigableString "/"] ] ].

(** A direction block with its label and two names. *)
Definition card_directed : node :=
  card [ Tag "div" (cls ["meta-body-item"; "meta-body-direction"; "light"])
           [ Tag "span" (cls ["light"]) [NavigableString "De"]; person "D"; person "E" ] ].

Definition page_no_card : node := soup [].

End Samples.

(** ** Facts about strings *)

Module StrFacts.
Import Py.

Local Arguments isdigit : simpl never.

Lemma str_app_cons c s t : String c s +:+ t = String c (s +:+ t).
Proof. reflexivity. Qed.

Lemma str_app_nil_l s : EmptyString +:+ s = s.
Proof. reflexivity. Qed.

Lemma str_app_nil_r s : s +:+ EmptyString = s.
Proof. induction s as [|c s IH]; [done|]. by rewrite str_app_cons, IH. Qed.

Lemma str_app_assoc s t u : (s +:+ t) +:+ u = s +:+ t +:+ u.
Proof. induction s as [|c s IH]; [done|]. by rewrite !str_app_cons, IH. Qed.

Lemma re_sub_nondigit_app s t :
  re_sub_nondigit (s +:+ t) = re_sub_nondigit s +:+ re_sub_nondigit t.
Proof.
  induction s as [|c s IH]; [done|].
  rewrite str_app_cons. simpl. destruct (isdigit c); by rewrite IH.
Qed.

Lemma re_sub_nondigit_digits s :
  all_chars isdigit s = true → re_sub_nondigit s = s.
Proof.
  induction s as [|c s IH]; [done|]. simpl.
  intros [Hc Hs]%andb_true_iff. rewrite Hc. by rewrite IH.
Qed.

Lemma re_sub_nondigit_others s :
  all_chars (λ c, negb (isdigit c)) s = true → re_sub_nondigit s = EmptyString.
Proof.
  induction s as [|c s IH]; [done|]. simpl.
  intros [Hc Hs]%andb_true_iff. apply negb_true_iff in Hc. rewrite Hc. auto.
Qed.

Lemma re_sub_nondigit_filter s :
  String.list_ascii_of_string (re_sub_nondigit s)
  = filter (λ c, isdigit c = true) (String.list_ascii_of_string s).
Proof.
  induction s as [|c s IH]; [done|]. simpl.
  rewrite filter_cons. destruct (isdigit c); simpl; by rewrite IH.
Qed.

End StrFacts.

(** ** The field rules *)

Module RuleFacts.
Import Py Bs4 Scraper Samples StrFacts.

(** [getattr] finds each of the ten methods. *)
Lemma run_rule_id movie : run_rule "id" movie = _get_movie_id movie.
Proof. reflexivity. Qed.
Lemma run_rule_title movie : run_rule "title" movie = _get_movie_title movie.
Proof. reflexivity. Qed.
Lemma run_rule_genres movie : run_rule "genres" movie = _get_movie_genres movie.
Proof. reflexivity. Qed.
Lemma run_rule_actors movie : run_rule "actors" movie = _get_movie_actors movie.
Proof. reflexivity. Qed.
Lemma run_rule_press_rating movie :
  run_rule "press_rating" movie = _get_movie_press_rating movie.
Proof. reflexivity. Qed.
Lemma run_rule_spec_rating movie :
  run_rule "spec_rating" movie = _get_movie_spec_rating movie.
Proof. reflexivity. Qed.

Lemma movie_infos_resolve info :
  info ∈ movie_infos → is_Some (methods !! ("_get_movie_" +:+ info)).
Proof.
  unfold movie_infos. intros Hin.
  repeat (apply elem_of_cons in Hin as [->|Hin]; [by eexists|]).
  by apply elem_of_nil in Hin.
Qed.

(** The loop of the rating rules stops at the first block that carries
    the label. *)
Lemma rating_loop_first label before block after :
  Forall (λ r : element, contains label (text (fst r)) = false) before →
  contains label (text (fst block)) = true →
  rating_loop label (before ++ block :: after)
  = (note ← dot (find sel_note (fst block)); Ok (Some (PStr (text (fst note))))).
Proof.
  intros Hbefore Hblock. induction Hbefore as [|r before Hr _ IH]; simpl.
  - by rewrite Hblock.
  - by rewrite Hr.
Qed.

Lemma rating_loop_none label blocks :
  Forall (λ r : element, contains label (text (fst r)) = false) blocks →
  rating_loop label blocks = Ok None.
Proof.
  induction 1 as [|r blocks Hr _ IH]; simpl; [done|]. by rewrite Hr.
Qed.

(** C7. The id of a card is the href of the link inside its title
    container with every non-digit character removed: the digits of the
    href are kept, in order, and nothing else; hence an href with two
    digit runs gives both runs, one after the other. *)
Theorem id_is_the_digits_of_the_href (movie : node) (div a : element) (href : string) :
  find sel_content_title movie = Some div →
  find (Selector ["a"] None) (fst div) = Some a →
  getitem (fst a) "href" = Ok (AStr href) →
  run_rule "id" movie = Ok (Some (PStr (re_sub_nondigit href)))
  ∧ scraped_info movie "id" = Some (PStr (re_sub_nondigit href))
  ∧ String.list_ascii_of_string (re_sub_nondigit href)
    = filter (λ c, isdigit c = true) (String.list_ascii_of_string href)
  ∧ ∀ p d1 q d2 r,
      href = p +:+ d1 +:+ q +:+ d2 +:+ r →
      all_chars (λ c, negb (isdigit c)) p = true →
      all_chars isdigit d1 = true →
      all_chars (λ c, negb (isdigit c)) q = true →
      all_chars isdigit d2 = true →
      all_chars (λ c, negb (isdigit c)) r = true →
      scraped_info movie "id" = Some (PStr (d1 +:+ d2)).
Proof.
  intros Hdiv Ha Hhref.
  assert (run_rule "id" movie = Ok (Some (PStr (re_sub_nondigit href)))) as Hrun.
  { rewrite run_rule_id. unfold _get_movie_id. rewrite Hdiv. simpl.
    rewrite Ha. simpl. rewrite Hhref. done. }
  assert (scraped_info movie "id" = Some (PStr (re_sub_nondigit href))) as Hinfo.
  { unfold scraped_info. by rewrite Hrun. }
  split_and!; [done|done|apply re_sub_nondigit_filter|].
  intros p d1 q d2 r -> Hp Hd1 Hq Hd2 Hr. rewrite Hinfo.
  rewrite !re_sub_nondigit_app.
  rewrite (re_sub_nondigit_others p), (re_sub_nondigit_others q),
    (re_sub_nondigit_others r) by done.
  rewrite !re_sub_nondigit_digits by done.
  by rewrite !str_app_nil_l, str_app_nil_r.
Qed.

Lemma id_is_the_digits_of_the_href_witness :
  scraped_info card_dated_href "id" = Some (PStr "2019123").
Proof.
  pose proof (id_is_the_digits_of_the_href card_dated_href
    (title_block "/film/2019/fichefilm_gen_cfilm=123.html" "Dated", [])
    (link "/film/2019/fichefilm_gen_cfilm=123.html" "Dated", [])
    "/film/2019/fichefilm_gen_cfilm=123.html"
    eq_refl eq_refl eq_refl) as (_ & _ & _ & H).
  exact (H "/film/" "2019" "/fichefilm_gen_cfilm=" "123" ".html"
           eq_refl eq_refl eq_refl eq_refl eq_refl eq_refl).
Defined.

(** C4. With the actor block holding the link-or-span elements
    [Role, A, B, C], the actors field is the texts of A, B and C joined
    by a comma and a space: the first element is dropped, whatever it
    is, and the others are kept in document order. *)
Theorem actors_drop_the_first_entry (movie : node) (block role : element)
    (names : list element) :
  find sel_actor movie = Some block →
  find_all sel_a_span (fst block) = role :: names →
  run_rule "actors" movie = Ok (Some (PStr (join ", " (texts names))))
  ∧ scraped_info movie "actors" = Some (PStr (join ", " (texts names)))
  ∧ ∀ a b c : element,
      names = [a; b; c] →
      scraped_info movie "actors"
      = Some (PStr (text (fst a) +:+ ", " +:+ text (fst b) +:+ ", " +:+ text (fst c))).
Proof.
  intros Hblock Hentries.
  assert (run_rule "actors" movie = Ok (Some (PStr (join ", " (texts names))))) as Hrun.
  { rewrite run_rule_actors. unfold _get_movie_actors.
    rewrite Hblock. simpl. by rewrite Hentries. }
  assert (scraped_info movie "actors" = Some (PStr (join ", " (texts names)))) as Hinfo.
  { unfold scraped_info. by rewrite Hrun. }
  split_and!; [done..|]. intros a b c ->. by rewrite Hinfo.
Qed.

Lemma actors_drop_the_first_entry_witness :
  scraped_info card_full "actors" = Some (PStr "A, B, C").
Proof.
  refine (proj2 (proj2 (actors_drop_the_first_entry card_full
    (actor_block [role_label; person "A"; person "B"; person "C"],
     [rating_block " Spectateurs " "4,0";
      Tag "div" (cls ["synopsis"]) [NavigableString "  A story. "]])
    (role_label, [person "A"; person "B"; person "C"])
    [(person "A", [person "B"; person "C"]); (person "B", [person "C"]); (person "C", [])]
    _ _)) _ _ _ eq_refl); reflexivity.
Defined.

(** C10. A block that is present but empty gives the empty string, not
    the missing marker: an actor block with a single link-or-span
    element, an info block without a genre span. Without the block the
    field is the missing marker, and the two values differ. *)
Theorem empty_block_is_not_missing (movie : node) :
  (∀ block only : element,
      find sel_actor movie = Some block →
      find_all sel_a_span (fst block) = [only] →
      scraped_info movie "actors" = Some (PStr EmptyString))
  ∧ (∀ block : element,
      find sel_meta_info movie = Some block →
      find_all sel_genre (fst block) = [] →
      scraped_info movie "genres" = Some (PStr EmptyString))
  ∧ (find sel_actor movie = None → scraped_info movie "actors" = None)
  ∧ (find sel_meta_info movie = None → scraped_info movie "genres" = None)
  ∧ Some (PStr EmptyString) ≠ (None : cell).
Proof.
  split_and!; [| | | |done].
  - intros block only Hblock Honly. unfold scraped_info.
    rewrite run_rule_actors. unfold _get_movie_actors.
    rewrite Hblock. simpl. by rewrite Honly.
  - intros block Hblock Hnone. unfold scraped_info.
    rewrite run_rule_genres. unfold _get_movie_genres.
    rewrite Hblock. simpl. by rewrite Hnone.
  - intros Hnone. unfold scraped_info.
    rewrite run_rule_actors. unfold _get_movie_actors. by rewrite Hnone.
  - intros Hnone. unfold scraped_info.
    rewrite run_rule_genres. unfold _get_movie_genres. by rewrite Hnone.
Qed.

Lemma empty_block_is_not_missing_witness :
  (scraped_info card_empty_blocks "actors" = Some (PStr EmptyString)
   ∧ scraped_info card_empty_blocks "genres" = Some (PStr EmptyString))
  ∧ (scraped_info card_no_blocks "actors" = None
     ∧ scraped_info card_no_blocks "genres" = None).
Proof.
  destruct (empty_block_is_not_missing card_empty_blocks) as (Hactors & Hgenres & _).
  destruct (empty_block_is_not_missing card_no_blocks) as (_ & _ & Ha & Hg & _).
  split; split.
  - apply (Hactors (actor_block [role_label], []) (role_label, [])); reflexivity.
  - apply (Hgenres (info_block [NavigableString "2020"], [actor_block [role_label]]));
      reflexivity.
  - apply Ha. reflexivity.
  - apply Hg. reflexivity.
Defined.

(** C3. The press rating is the text of the star-rating note nested in
    the first rating-item block, in document order, whose text contains
    "Presse"; the spectator rating likewise with "Spectateurs". When no
    rating-item block carries the label the rule returns the missing
    marker, and it returns it normally: no exception is raised. *)
Theorem ratings_follow_the_label (movie : node) (label info : string) :
  (label, info) ∈ [("Presse", "press_rating"); ("Spectateurs", "spec_rating")] →
  (∀ (before : list element) (block : element) (after : list element) (note : element),
      find_all sel_rating_item movie = before ++ block :: after →
      Forall (λ r : element, contains label (text (fst r)) = false) before →
      contains label (text (fst block)) = true →
      find sel_note (fst block) = Some note →
      run_rule info movie = Ok (Some (PStr (text (fst note))))
      ∧ scraped_info movie info = Some (PStr (text (fst note))))
  ∧ (Forall (λ r : element, contains label (text (fst r)) = false)
       (find_all sel_rating_item movie) →
     run_rule info movie = Ok None ∧ scraped_info movie info = None).
Proof.
  intros Hin.
  assert (run_rule info movie = rating_loop label (find_all sel_rating_item movie))
    as Hrule.
  { apply elem_of_cons in Hin as [[= -> ->]|Hin]; [done|].
    apply elem_of_cons in Hin as [[= -> ->]|Hin]; [done|].
    by apply elem_of_nil in Hin. }
  unfold scraped_info. rewrite Hrule. split.
  - intros before block after note Hblocks Hbefore Hlabel Hnote.
    rewrite Hblocks, rating_loop_first by done. by rewrite Hnote.
  - intros Hnone. by rewrite rating_loop_none.
Qed.

Lemma ratings_follow_the_label_witness :
  (scraped_info card_rated "press_rating" = Some (PStr "3.5")
   ∧ scraped_info card_rated "spec_rating" = Some (PStr "4.0"))
  ∧ (run_rule "press_rating" card_minimal = Ok None
     ∧ run_rule "spec_rating" card_minimal = Ok None).
Proof.
  pose (press := (rating_block "Presse" "3.5", [rating_block "Spectateurs" "4.0"])).
  pose (spec := (rating_block "Spectateurs" "4.0", @nil node)).
  split; split.
  - refine (proj2 (proj1 (ratings_follow_the_label card_rated "Presse" "press_rating" _)
      [] press [spec]
      (Tag "span" (cls ["stareval-note"]) [NavigableString "3.5"], []) _ _ _ _)).
    + apply list_elem_of_here.
    + reflexivity.
    + constructor.
    + reflexivity.
    + reflexivity.
  - refine (proj2 (proj1 (ratings_follow_the_label card_rated "Spectateurs" "spec_rating" _)
      [press] spec []
      (Tag "span" (cls ["stareval-note"]) [NavigableString "4.0"], []) _ _ _ _)).
    + apply list_elem_of_further, list_elem_of_here.
    + reflexivity.
    + repeat constructor.
    + reflexivity.
    + reflexivity.
  - refine (proj1 (proj2 (ratings_follow_the_label card_minimal "Presse" "press_rating" _) _)).
    + apply list_elem_of_here.
    + constructor.
  - refine (proj1 (proj2
      (ratings_follow_the_label card_minimal "Spectateurs" "spec_rating" _) _)).
    + apply list_elem_of_further, list_elem_of_here.
    + constructor.
Defined.

End RuleFacts.

(** ** The card loop and the frame *)

Module CardFacts.
Import Py Bs4 Scraper Samples RuleFacts.

Lemma movie_infos_NoDup : NoDup movie_infos.
Proof. apply (bool_decide_unpack _). by vm_compute. Qed.

Lemma length_movie_datas movie : length (movie_datas movie) = length movie_infos.
Proof. unfold movie_datas. by rewrite length_fmap. Qed.

Lemma lookup_movie_datas movie i info :
  movie_infos !! i = Some info →
  movie_datas movie !! i = Some (scraped_info movie info).
Proof. intros Hi. unfold movie_datas. by rewrite list_lookup_fmap, Hi. Qed.

(** A row that has one value per column is always accepted, so the
    card loop runs to its end. *)
Lemma card_loop_total df cards :
  length (columns df) = length movie_infos →
  card_loop df cards
  = ({| columns := columns df;
        rows := rows df ++ ((λ movie : element, movie_datas (fst movie)) <$> cards) |},
     Ok ()).
Proof.
  revert df. induction cards as [|movie cards IH]; intros [cols rws] Hcols;
    cbn [card_loop columns rows fmap list_fmap] in *.
  - by rewrite app_nil_r.
  - unfold loc_append. cbn [columns rows].
    rewrite decide_True by (by rewrite length_movie_datas).
    rewrite IH by done. cbn [columns rows]. by rewrite <- app_assoc.
Qed.

Lemma parse_list_page_dataset w self st page :
  columns (dataset st) = movie_infos →
  dataset (fst (_parse_list_page w self st page))
  = {| columns := movie_infos; rows := rows (dataset st) ++ extract page |}.
Proof.
  intros Hcols. unfold _parse_list_page.
  rewrite card_loop_total by (by rewrite Hcols). rewrite Hcols.
  by destruct (can_write w (csv_path self)).
Qed.

Lemma process_pages_dataset w self st pages :
  columns (dataset st) = movie_infos →
  dataset (process_pages w self st pages)
  = {| columns := movie_infos;
       rows := rows (dataset st) ++ concat (extract <$> pages) |}.
Proof.
  revert st. induction pages as [|page pages IH]; intros st Hcols; simpl.
  - rewrite app_nil_r. destruct (dataset st); simpl in *. by subst.
  - unfold process_pages in *. simpl. rewrite IH.
    + rewrite parse_list_page_dataset by done. simpl. by rewrite <- app_assoc.
    + by rewrite parse_list_page_dataset.
Qed.

Lemma length_extract page : length (extract page) = length (find_all sel_card page).
Proof. unfold extract. by rewrite length_fmap. Qed.

Lemma length_records pages :
  length (concat (extract <$> pages)) = detected_cards pages.
Proof.
  unfold detected_cards. induction pages as [|page pages IH]; [done|].
  rewrite !fmap_cons. cbn [concat sum_list sum_list_with].
  by rewrite length_app, length_extract, IH.
Qed.

(** C2. A page with K detected cards gives K records, whatever is
    missing in the cards. After any pages, starting from the empty
    frame, the rows are the records of those pages in order, so their
    number is the number of cards detected so far; the columns are the
    ten names; every row has one cell per column, the cell of a field
    being what its rule returned or the missing marker when it raised. *)
Theorem one_row_per_detected_card (w : world) (self : scraper) (pages : list node) :
  let st := process_pages w self initial_state pages in
  (∀ page, length (extract page) = length (find_all sel_card page))
  ∧ rows (dataset st) = concat (extract <$> pages)
  ∧ len (dataset st) = detected_cards pages
  ∧ columns (dataset st) = movie_infos
  ∧ length movie_infos = 10
  ∧ Forall (λ row : list cell, length row = 10) (rows (dataset st))
  ∧ (∀ movie i info,
       movie_infos !! i = Some info →
       movie_datas movie !! i = Some (scraped_info movie info))
  ∧ (∀ movie info e, run_rule info movie = Raise e → scraped_info movie info = None).
Proof.
  intros st.
  assert (dataset st = {| columns := movie_infos; rows := concat (extract <$> pages) |})
    as Hst by (unfold st; by rewrite process_pages_dataset).
  split_and!.
  - apply length_extract.
  - by rewrite Hst.
  - unfold len. rewrite Hst. apply length_records.
  - by rewrite Hst.
  - done.
  - rewrite Hst. simpl. apply Forall_concat, Forall_fmap, Forall_forall.
    intros page _. unfold extract. apply Forall_fmap, Forall_forall.
    intros movie _. exact (length_movie_datas (fst movie)).
  - intros movie i info. apply lookup_movie_datas.
  - intros movie info e Hraise. unfold scraped_info. by rewrite Hraise.
Qed.

(** The page of two cards: the first one lacks its press rating only,
    the second one has its id and its title only. *)
Example two_cards_two_records :
  extract page_two_cards
  = [ [ Some (PStr "123456"); Some (PStr "Example Movie"); Some (PStr "12 juin 2019");
        Some (PStr "1h 45min"); Some (PStr "Drama, Comedy"); Some (PStr "D");
        Some (PStr "A, B, C"); None; Some (PStr "4,0"); Some (PStr "A story.") ];
      [ Some (PStr "789"); Some (PStr "Other Movie");
        None; None; None; None; None; None; None; None ] ].
Proof. reflexivity. Qed.

Lemma one_row_per_detected_card_witness :
  len (dataset (process_pages (one_page_world page_two_cards) allocine initial_state
                  [page_two_cards; page_two_cards]))
  = detected_cards [page_two_cards; page_two_cards]
  ∧ movie_datas card_minimal !! 9 = Some (scraped_info card_minimal "summary")
  ∧ scraped_info card_minimal "summary" = None.
Proof.
  destruct (one_row_per_detected_card (one_page_world page_two_cards) allocine
              [page_two_cards; page_two_cards]) as (_ & _ & Hlen & _ & _ & _ & Hcell & Hraise).
  split_and!.
  - exact Hlen.
  - apply Hcell. reflexivity.
  - apply (Hraise card_minimal "summary" AttributeError). reflexivity.
Defined.

(** C1, as the specification words it, fails. A card without its title
    container loses its id as well as its title, since both rules start
    from that container; and a card without its first spacer gets, for
    the duration, the stripped text after the next spacer (here the empty
    string), not the missing marker. *)
Lemma fragments_are_shared :
  ¬ field_independent "title" sel_content_title
  ∧ ¬ field_independent "duration" sel_spacer.
Proof.
  split; intros Hclaim.
  - specialize (Hclaim card_full 1 eq_refl).
    apply (f_equal (λ row : list cell, row !! 0)) in Hclaim.
    vm_compute in Hclaim. discriminate Hclaim.
  - specialize (Hclaim card_spaced 3 eq_refl).
    apply (f_equal (λ row : list cell, row !! 3)) in Hclaim.
    vm_compute in Hclaim. discriminate Hclaim.
Qed.

(** C1, amended. When, on a modified card, the rule of one field raises
    and the rules of the other fields return what they return on the
    original card, the record is the original record with the missing
    marker in that field. The exception stays inside the field: the
    card loop still ends normally, and the rows it adds are those of
    the original page with that one cell changed. *)
Theorem failing_rule_changes_one_cell (df : DataFrame)
    (before after : list element) (movie movie' : element)
    (i : nat) (info : string) (e : exn) :
  columns df = movie_infos →
  movie_infos !! i = Some info →
  run_rule info (fst movie') = Raise e →
  (∀ other, other ∈ movie_infos → other ≠ info →
     run_rule other (fst movie') = run_rule other (fst movie)) →
  movie_datas (fst movie') = <[i := None]> (movie_datas (fst movie))
  ∧ card_loop df (before ++ movie' :: after)
    = ({| columns := movie_infos;
          rows := rows df
                  ++ <[length before := <[i := None]> (movie_datas (fst movie))]>
                       ((λ m : element, movie_datas (fst m)) <$> (before ++ movie :: after)) |},
       Ok ()).
Proof.
  intros Hcols Hi Hraise Hothers.
  assert (movie_datas (fst movie') = <[i := None]> (movie_datas (fst movie))) as Hrow.
  { apply list_eq. intros j. destruct (decide (i = j)) as [<-|Hne].
    - rewrite list_lookup_insert_eq
        by (rewrite length_movie_datas; by eapply lookup_lt_Some).
      rewrite (lookup_movie_datas _ _ _ Hi). unfold scraped_info. by rewrite Hraise.
    - rewrite list_lookup_insert_ne by done.
      unfold movie_datas. rewrite !list_lookup_fmap.
      destruct (movie_infos !! j) as [other|] eqn:Hj; [|done]. simpl.
      f_equal. unfold scraped_info. rewrite Hothers; [done| |].
      + by eapply list_elem_of_lookup_2.
      + intros ->. apply Hne. by eapply NoDup_lookup; [apply movie_infos_NoDup|..]. }
  split; [done|].
  rewrite card_loop_total by (by rewrite Hcols). rewrite Hcols.
  do 3 f_equal. rewrite !fmap_app, !fmap_cons.
  rewrite insert_app_r_alt by (by rewrite length_fmap).
  rewrite length_fmap, Nat.sub_diag. simpl. by rewrite Hrow.
Qed.

Lemma failing_rule_changes_one_cell_witness :
  movie_datas card_minimal_no_href = <[0 := None]> (movie_datas card_minimal)
  ∧ card_loop empty_dataset [(card_minimal_no_href, [card_full]); (card_full, [])]
    = ({| columns := movie_infos;
          rows := [] ++ <[0 := <[0 := None]> (movie_datas card_minimal)]>
                    ((λ m : element, movie_datas (fst m))
                       <$> [] ++ [(card_minimal, [card_full]); (card_full, [])]) |},
       Ok ()).
Proof.
  apply (failing_rule_changes_one_cell empty_dataset [] [(card_full, [])]
           (card_minimal, [card_full]) (card_minimal_no_href, [card_full])
           0 "id" KeyError).
  - reflexivity.
  - reflexivity.
  - reflexivity.
  - intros other Hin Hne. unfold movie_infos in Hin.
    repeat (apply elem_of_cons in Hin as [->|Hin]; [done || reflexivity|]).
    by apply elem_of_nil in Hin.
Defined.

End CardFacts.


(** ** The dump and its reader *)

Module CsvFacts.
Import Py Csv StrFacts.

Lemma special_false q c :
  special q c = false →
  Ascii.eqb c comma = false ∧ Ascii.eqb c dquote = false ∧ Ascii.eqb c newline = false.
Proof.
  unfold special. intros H.
  apply orb_false_iff in H as [H _]. apply orb_false_iff in H as [H Hn].
  apply orb_false_iff in H as [Hc Hq]. done.
Qed.

Lemma has_special_nonempty q s : has_special q s = true → nonempty s = Some s.
Proof. by destruct s. Qed.

(** An unquoted run is copied to the field. *)
Lemma reader_bare q s field row rows rest :
  has_special q s = false →
  reader Bare field row rows (s +:+ rest) = reader Bare (field +:+ s) row rows rest.
Proof.
  revert field. induction s as [|c s IH]; intros field Hs.
  - by rewrite str_app_nil_l, str_app_nil_r.
  - cbn [has_special] in Hs. apply orb_false_iff in Hs as [Hc Hs].
    apply special_false in Hc as (Hcomma & _ & Hnl).
    rewrite str_app_cons. cbn [reader]. rewrite Hcomma, Hnl.
    rewrite IH by done. unfold snoc. by rewrite str_app_assoc.
Qed.

(** Inside quotes, the doubled quotes are read as single ones. *)
Lemma reader_quoted s field row rows rest :
  reader Quoted field row rows (double_quotes s +:+ rest)
  = reader Quoted (field +:+ s) row rows rest.
Proof.
  revert field. induction s as [|c s IH]; intros field.
  - by rewrite str_app_nil_l, str_app_nil_r.
  - cbn [double_quotes]. destruct (Ascii.eqb c dquote) eqn:Hc.
    + apply Ascii.eqb_eq in Hc as ->. rewrite !str_app_cons. cbn [reader].
      rewrite Ascii.eqb_refl. rewrite IH. unfold snoc. by rewrite str_app_assoc.
    + rewrite str_app_cons. cbn [reader]. rewrite Hc.
      rewrite IH. unfold snoc. by rewrite str_app_assoc.
Qed.

(** A written field followed by a comma. *)
Lemma reader_field_comma q s row rows rest :
  reader FieldStart EmptyString row rows (quote_field q s +:+ String comma rest)
  = reader FieldStart EmptyString (row ++ [nonempty s]) rows rest.
Proof.
  unfold quote_field. destruct (has_special q s) eqn:Hs.
  - rewrite str_app_cons, str_app_assoc, str_app_cons, str_app_nil_l. cbn [reader].
    rewrite Ascii.eqb_refl, reader_quoted, str_app_nil_l. cbn [reader].
    rewrite Ascii.eqb_refl. cbn [reader].
    by rewrite (has_special_nonempty q s Hs).
  - destruct s as [|c s]; [done|].
    cbn [has_special] in Hs. apply orb_false_iff in Hs as [Hc Hs].
    apply special_false in Hc as (Hcomma & Hquote & Hnl).
    rewrite str_app_cons. cbn [reader]. rewrite Hcomma, Hquote, Hnl.
    rewrite (reader_bare q) by done. done.
Qed.

(** A written field followed by the line terminator. *)
Lemma reader_field_newline q s row rows rest :
  reader FieldStart EmptyString row rows (quote_field q s +:+ String newline rest)
  = reader FieldStart EmptyString [] (rows ++ [row ++ [nonempty s]]) rest.
Proof.
  unfold quote_field. destruct (has_special q s) eqn:Hs.
  - rewrite str_app_cons, str_app_assoc, str_app_cons, str_app_nil_l. cbn [reader].
    rewrite Ascii.eqb_refl, reader_quoted, str_app_nil_l. cbn [reader].
    rewrite Ascii.eqb_refl. cbn [reader].
    by rewrite (has_special_nonempty q s Hs).
  - destruct s as [|c s]; [done|].
    cbn [has_special] in Hs. apply orb_false_iff in Hs as [Hc Hs].
    apply special_false in Hc as (Hcomma & Hquote & Hnl).
    rewrite str_app_cons. cbn [reader]. rewrite Hcomma, Hquote, Hnl.
    rewrite (reader_bare q) by done. done.
Qed.

Lemma concat_cons_cons sep x y l :
  String.concat sep (x :: y :: l) = x +:+ sep +:+ String.concat sep (y :: l).
Proof. reflexivity. Qed.

(** The fields of one record, up to its line terminator. *)
Lemma reader_fields q fields row rows rest :
  fields ≠ [] →
  reader FieldStart EmptyString row rows
    (String.concat (String comma EmptyString) (quote_field q <$> fields)
     +:+ String newline rest)
  = reader FieldStart EmptyString [] (rows ++ [row ++ (nonempty <$> fields)]) rest.
Proof.
  revert row. induction fields as [|f [|g fields] IH]; intros row Hne; [done| |].
  - cbn [fmap list_fmap String.concat]. apply reader_field_newline.
  - rewrite !fmap_cons, concat_cons_cons, !str_app_assoc, str_app_cons, str_app_nil_l.
    rewrite reader_field_comma. rewrite <- fmap_cons, IH by done.
    by rewrite <- (assoc_L (++)).
Qed.

Lemma reader_writerow q fields rows rest :
  2 ≤ length fields →
  reader FieldStart EmptyString [] rows (writerow q fields +:+ rest)
  = reader FieldStart EmptyString [] (rows ++ [nonempty <$> fields]) rest.
Proof.
  intros Hlen. destruct fields as [|f [|g fields]]; simpl in Hlen; [lia..|].
  unfold writerow. rewrite str_app_assoc, str_app_cons, str_app_nil_l.
  assert (match f :: g :: fields with
          | [EmptyString] => String dquote (String dquote EmptyString)
          | _ => String.concat (String comma EmptyString) (quote_field q <$> f :: g :: fields)
          end
          = String.concat (String comma EmptyString) (quote_field q <$> f :: g :: fields))
    as -> by (by destruct f).
  by rewrite reader_fields.
Qed.

Lemma writerows_cons q r rs :
  writerows q (r :: rs) = writerow q r +:+ writerows q rs.
Proof.
  unfold writerows. destruct rs as [|r' rs].
  - cbn [fmap list_fmap String.concat]. by rewrite str_app_nil_r.
  - by rewrite !fmap_cons, concat_cons_cons, str_app_nil_l.
Qed.

Lemma reader_writerows q records rows rest :
  Forall (λ r : list string, 2 ≤ length r) records →
  reader FieldStart EmptyString [] rows (writerows q records +:+ rest)
  = reader FieldStart EmptyString [] (rows ++ (read_back <$> records)) rest.
Proof.
  intros Hrecords. revert rows.
  induction Hrecords as [|r records Hr _ IH]; intros rows.
  - unfold writerows. cbn [fmap list_fmap String.concat].
    by rewrite str_app_nil_l, (right_id_L [] (++)).
  - rewrite writerows_cons, str_app_assoc, reader_writerow by done.
    rewrite IH, fmap_cons. by rewrite <- (assoc_L (++)).
Qed.

(** Reading what was written: the records come back one for one, field
    for field, an empty field as [None]. *)
Lemma read_written q header records :
  2 ≤ length header →
  Forall (λ r : list string, 2 ≤ length r) records →
  read (writerow q header +:+ writerows q records)
  = Some (read_back header :: (read_back <$> records)).
Proof.
  intros Hheader Hrecords. unfold read.
  rewrite reader_writerow by done.
  rewrite <- (str_app_nil_r (writerows q records)), reader_writerows by done.
  done.
Qed.

End CsvFacts.


(** ** The sink: the shared frame and its file *)

Module SinkFacts.
Import Py Bs4 Scraper Samples CardFacts CsvFacts.

Lemma parse_list_page_ok w self st page :
  columns (dataset st) = movie_infos →
  can_write w (csv_path self) = true →
  _parse_list_page w self st page
  = (let df := {| columns := movie_infos; rows := rows (dataset st) ++ extract page |} in
     {| dataset := df;
        files := <[csv_path self := to_csv w df]> (files st);
        trace := trace st ++ [Write (csv_path self)] |},
     Ok ()).
Proof.
  intros Hcols Hwrite. unfold _parse_list_page.
  rewrite card_loop_total by (by rewrite Hcols). by rewrite Hcols, Hwrite.
Qed.

Lemma reread_plain w c : plain c → reread w c = c.
Proof. destruct c as [[[|a s]|l]|]; simpl; done. Qed.

Lemma reread_record_plain w r : Forall plain r → reread_record w r = r.
Proof.
  unfold reread_record. induction 1 as [|c r Hc _ IH]; [done|].
  by rewrite fmap_cons, IH, reread_plain.
Qed.

Lemma read_record_read_back w r :
  read_record (Csv.read_back (csv_record w r)) = reread_record w r.
Proof.
  unfold read_record, Csv.read_back, csv_record, reread_record.
  by rewrite <- !list_fmap_compose.
Qed.

(** What comes back from a dump of a well-formed frame. *)
Lemma read_csv_to_csv w df :
  columns df = movie_infos →
  Forall (λ row : list cell, length row = 10) (rows df) →
  read_csv (to_csv w df)
  = Some {| columns := movie_infos; rows := reread_record w <$> rows df |}.
Proof.
  intros Hcols Hrows. unfold read_csv, to_csv. rewrite Hcols.
  rewrite read_written.
  - assert (mapM id (Csv.read_back movie_infos) = Some movie_infos) as -> by reflexivity.
    simpl. do 2 f_equal. rewrite <- !list_fmap_compose.
    apply list_fmap_ext. intros _ r _. apply read_record_read_back.
  - simpl. lia.
  - apply Forall_fmap. eapply Forall_impl; [exact Hrows|].
    intros r Hr. simpl in *. unfold csv_record. rewrite length_fmap. lia.
Qed.



(** C8, as the specification words it, fails: a card whose actor block
    holds the role label alone and a card without the block give
    different frames and the same file. *)
Lemma empty_string_and_missing_share_a_dump :
  ¬ lossless (one_page_world page_two_cards) allocine.
Proof.
  intros [reader Hreader].
  pose proof (Hreader [soup [card_empty_blocks]]) as H1.
  pose proof (Hreader [soup [card_no_blocks]]) as H2.
  vm_compute in H1, H2. rewrite H1 in H2. discriminate H2.
Qed.

(** C8, amended. Reading back the dump of a frame of N rows gives the ten
    columns in their order and N rows, each cell as it was, except that
    a cell holding the empty string comes back as the missing marker (and
    an object that is not a string as its text). Hence a frame whose
    cells are the missing marker or non-empty strings is read back
    unchanged. *)
Theorem dump_reads_back (w : world) (df : DataFrame) :
  columns df = movie_infos →
  Forall (λ row : list cell, length row = 10) (rows df) →
  read_csv (to_csv w df)
  = Some {| columns := columns df; rows := reread_record w <$> rows df |}
  ∧ length (reread_record w <$> rows df) = len df
  ∧ reread w None = None
  ∧ reread w (Some (PStr EmptyString)) = None
  ∧ (Forall (Forall plain) (rows df) → read_csv (to_csv w df) = Some df).
Proof.
  intros Hcols Hrows. rewrite read_csv_to_csv by done.
  split_and!; [by rewrite Hcols|by rewrite length_fmap|done|done|].
  intros Hplain. destruct df as [cols rws]. simpl in *. subst cols. do 2 f_equal.
  induction Hplain as [|r rws Hr _ IH]; [done|].
  apply Forall_cons in Hrows as [_ Hrows].
  by rewrite fmap_cons, IH, reread_record_plain.
Qed.

Lemma dump_reads_back_witness :
  read_csv (to_csv (one_page_world page_two_cards) (frame_of [card_full; card_minimal]))
  = Some (frame_of [card_full; card_minimal]).
Proof.
  refine (proj2 (proj2 (proj2 (proj2
    (dump_reads_back (one_page_world page_two_cards)
       (frame_of [card_full; card_minimal]) _ _)))) _).
  - reflexivity.
  - repeat constructor.
  - vm_compute. repeat constructor; discriminate.
Defined.

(** C9, as the specification words it, fails: extracting a page changes
    the state of the program. *)
Lemma extraction_changes_the_state :
  ¬ extraction_is_pure (one_page_world page_two_cards) allocine.
Proof.
  intros Hpure. specialize (Hpure initial_state page_two_cards).
  apply (f_equal (λ st, len (dataset st))) in Hpure.
  vm_compute in Hpure. discriminate Hpure.
Qed.

(** C9, amended. The records of a page are a function of its markup
    alone, so two runs on the same markup compute the same records; but
    each run appends them to the shared frame, which then holds them
    twice, and each run rewrites the output file. *)
Theorem extraction_appends_and_persists (w : world) (self : scraper) (st : state)
    (page : node) :
  columns (dataset st) = movie_infos →
  let st1 := fst (_parse_list_page w self st page) in
  let st2 := fst (_parse_list_page w self st1 page) in
  rows (dataset st1) = rows (dataset st) ++ extract page
  ∧ rows (dataset st2) = (rows (dataset st) ++ extract page) ++ extract page
  ∧ len (dataset st2) = len (dataset st) + 2 * length (find_all sel_card page)
  ∧ (can_write w (csv_path self) = true →
     files st1 !! csv_path self = Some (to_csv w (dataset st1))
     ∧ files st2 !! csv_path self = Some (to_csv w (dataset st2))
     ∧ trace st2 = trace st ++ [Write (csv_path self); Write (csv_path self)]).
Proof.
  intros Hcols st1 st2.
  assert (dataset st1
          = {| columns := movie_infos; rows := rows (dataset st) ++ extract page |})
    as H1 by (by apply parse_list_page_dataset).
  assert (dataset st2
          = {| columns := movie_infos; rows := rows (dataset st1) ++ extract page |})
    as H2 by (apply parse_list_page_dataset; by rewrite H1).
  split_and!.
  - by rewrite H1.
  - by rewrite H2, H1.
  - unfold len. rewrite H2, H1. cbn [rows].
    rewrite !length_app, length_extract. lia.
  - intros Hwrite. unfold st2, st1.
    rewrite (parse_list_page_ok w self st page) by done. cbn [fst].
    rewrite parse_list_page_ok by done. cbn [fst dataset files trace rows].
    split_and!.
    + apply lookup_insert_eq.
    + apply lookup_insert_eq.
    + by rewrite <- (assoc_L (++)).
Qed.

Lemma extraction_appends_and_persists_witness :
  rows (dataset (fst (_parse_list_page (one_page_world page_two_cards) allocine
    (fst (_parse_list_page (one_page_world page_two_cards) allocine
            initial_state page_two_cards)) page_two_cards)))
  = ([] ++ extract page_two_cards) ++ extract page_two_cards.
Proof.
  refine (proj1 (proj2 (extraction_appends_and_persists
    (one_page_world page_two_cards) allocine initial_state page_two_cards _))).
  reflexivity.
Defined.

End SinkFacts.

(** ** The driver loop *)

Module DriverFacts.
Import Py Bs4 Scraper Samples CardFacts SinkFacts.


Lemma get_urls_app tr1 tr2 : get_urls (tr1 ++ tr2) = get_urls tr1 ++ get_urls tr2.
Proof. apply omap_app. Qed.

(** Parsing a page requests nothing. *)
Lemma get_urls_parse_list_page w self st page :
  get_urls (trace (fst (_parse_list_page w self st page))) = get_urls (trace st).
Proof.
  unfold _parse_list_page.
  destruct (card_loop (dataset st) (find_all sel_card page)) as [df [[]|e]]; [|done].
  destruct (can_write w (csv_path self)); [|done].
  cbn [fst trace]. rewrite get_urls_app. cbn. by rewrite (right_id_L [] (++)).
Qed.

(** Whatever happens, the requests made are those of the first numbers
    of the loop, in order. *)
Lemma page_loop_requests w self numbers st :
  ∃ fetched,
    fetched `prefix_of` numbers
    ∧ get_urls (trace (fst (page_loop w self numbers st)))
      = get_urls (trace st) ++ (page_url <$> fetched).
Proof.
  revert st. induction numbers as [|number numbers IH]; intros st.
  - exists []. split; [done|]. simpl. by rewrite (right_id_L [] (++)).
  - cbn [page_loop]. unfold _get_page.
    destruct (requests_get w (page_url number)) as [response|e].
    + pose proof (get_urls_parse_list_page w self (requested st (page_url number)) response)
        as Hparse.
      destruct (_parse_list_page w self (requested st (page_url number)) response)
        as [st2 [[]|e]]; cbn [fst] in Hparse.
      * destruct (IH (slept st2 (human_pause self))) as (fetched & Hprefix & Hurls).
        exists (number :: fetched). split; [by apply prefix_cons|].
        rewrite Hurls. cbn [slept trace]. rewrite get_urls_app, Hparse.
        cbn [requested trace]. rewrite get_urls_app. cbn.
        by rewrite (right_id_L [] (++)), <- (assoc_L (++)).
      * exists [number]. split; [apply prefix_cons, prefix_nil|].
        cbn [fst]. rewrite Hparse. cbn [requested trace]. by rewrite get_urls_app.
    + exists [number]. split; [apply prefix_cons, prefix_nil|].
      cbn [fst requested trace]. by rewrite get_urls_app.
Qed.





End DriverFacts.

(** ** More about strings: reversal, [strip] and suffixes *)

Module StripFacts.
Import Py StrFacts.

Local Arguments isspace : simpl never.

Lemma rev_app_spec s t : String.rev_app s t = String.rev s +:+ t.
Proof.
  unfold String.rev. revert t. induction s as [|a s IH]; intros t; [done|].
  cbn [String.rev_app]. rewrite IH, (IH (String a EmptyString)).
  by rewrite str_app_assoc.
Qed.

Lemma rev_cons a s : String.rev (String a s) = String.rev s +:+ String a EmptyString.
Proof. unfold String.rev at 1. cbn [String.rev_app]. apply rev_app_spec. Qed.

Lemma rev_app_distr s t : String.rev (s +:+ t) = String.rev t +:+ String.rev s.
Proof.
  induction s as [|a s IH].
  - by rewrite str_app_nil_l, str_app_nil_r.
  - by rewrite str_app_cons, !rev_cons, IH, str_app_assoc.
Qed.

Lemma rev_involutive s : String.rev (String.rev s) = s.
Proof.
  induction s as [|a s IH]; [done|].
  by rewrite rev_cons, rev_app_distr, IH.
Qed.

Lemma lstrip_head s c s' : lstrip s = String c s' → isspace c = false.
Proof.
  induction s as [|a s IH]; [done|]. cbn [lstrip].
  destruct (isspace a) eqn:Ha; [done|]. by intros [= <- _].
Qed.

Lemma lstrip_keeps_last u c :
  isspace c = false →
  ∃ z, lstrip (u +:+ String c EmptyString) = z +:+ String c EmptyString.
Proof.
  intros Hc. induction u as [|a u IH].
  - exists EmptyString. rewrite !str_app_nil_l. cbn [lstrip]. by rewrite Hc.
  - rewrite str_app_cons. cbn [lstrip]. destruct (isspace a); [done|].
    by exists (String a u).
Qed.

Lemma lstrip_spaces s : all_chars isspace s = true → lstrip s = EmptyString.
Proof.
  induction s as [|a s IH]; [done|]. cbn [all_chars lstrip].
  intros [Ha Hs]%andb_true_iff. rewrite Ha. auto.
Qed.

(** What [strip] returns neither starts nor ends with white space. *)
Lemma strip_head s c s' : strip s = String c s' → isspace c = false.
Proof.
  unfold strip, rstrip. destruct (lstrip s) as [|d y] eqn:Hy; [done|].
  pose proof (lstrip_head _ _ _ Hy) as Hd.
  rewrite rev_cons. destruct (lstrip_keeps_last (String.rev y) d Hd) as [z ->].
  rewrite rev_app_distr. cbn. by intros [= <- _].
Qed.

Lemma strip_last s s' c : strip s = s' +:+ String c EmptyString → isspace c = false.
Proof.
  unfold strip, rstrip. intros Hs.
  apply (f_equal String.rev) in Hs. rewrite rev_involutive, rev_app_distr in Hs.
  by apply lstrip_head in Hs.
Qed.

Lemma strip_spaces s : all_chars isspace s = true → strip s = EmptyString.
Proof. intros Hs. unfold strip. by rewrite lstrip_spaces. Qed.

Lemma substring_app p r : String.substring 0 (String.length p) (p +:+ r) = p.
Proof.
  induction p as [|a p IH].
  - by destruct r.
  - rewrite str_app_cons. cbn [String.length String.substring]. by rewrite IH.
Qed.

Lemma substring_prefix n s p :
  String.substring 0 n s = p → String.length p = n → ∃ r, s = p +:+ r.
Proof.
  revert s p. induction n as [|n IH]; intros s p Hsub Hlen.
  - destruct p; [|done]. by exists s.
  - destruct s as [|a s]; cbn [String.substring] in Hsub.
    + by subst p.
    + subst p. cbn [String.length] in Hlen. injection Hlen as Hlen.
      destruct (IH s _ eq_refl Hlen) as [r Hr]. exists r.
      by rewrite str_app_cons, <- Hr.
Qed.

(** [name[-4:] == ".csv"] holds exactly for the names that end with
    these four characters. *)
Lemma last_chars_csv name :
  String.eqb (last_chars 4 name) ".csv" = true ↔ ∃ stem, name = stem +:+ ".csv".
Proof.
  rewrite String.eqb_eq. unfold last_chars. split.
  - intros Hlast. apply (f_equal String.rev) in Hlast.
    rewrite rev_involutive in Hlast.
    destruct (substring_prefix 4 _ _ Hlast eq_refl) as [r Hr].
    exists (String.rev r). apply (f_equal String.rev) in Hr.
    by rewrite rev_involutive, rev_app_distr in Hr.
  - intros [stem ->]. rewrite rev_app_distr.
    by rewrite (substring_app (String.rev ".csv")).
Qed.

End StripFacts.

(** ** The constructor *)

Module InitFacts.
Import Py Scraper Samples StripFacts.

(** X1. The constructor accepts exactly the options with at least two
    pages, a file name that ends with ".csv" (the bare ".csv" included)
    and a pause of at least two seconds, and it keeps them as given. *)
Theorem init_accepts_valid_options (n : Z) (name : string) (pause : Z) (self : scraper) :
  __init__ n name pause = Ok self
  ↔ (2 ≤ n)%Z
    ∧ (∃ stem, name = stem +:+ ".csv")
    ∧ (2 ≤ pause)%Z
    ∧ self = {| number_of_pages := n; dataset_name := name; human_pause := pause |}.
Proof.
  unfold __init__. rewrite <- last_chars_csv. split.
  - destruct (bool_decide (n < 2)%Z) eqn:Hn; [done|].
    apply bool_decide_eq_false in Hn.
    destruct (String.eqb (last_chars 4 name) ".csv"); [|done]. cbn [negb].
    destruct (bool_decide (pause < 2)%Z) eqn:Hp; [done|].
    apply bool_decide_eq_false in Hp.
    intros [= <-]. split_and!; [lia|done|lia|done].
  - intros (Hn & -> & Hp & ->). cbn [negb].
    rewrite !bool_decide_eq_false_2 by lia. done.
Qed.

Lemma init_accepts_valid_options_witness :
  __init__ 2 ".csv" 2
  = Ok {| number_of_pages := 2; dataset_name := ".csv"; human_pause := 2 |}.
Proof.
  apply (proj2 (init_accepts_valid_options 2 ".csv" 2 _)).
  split_and!; [lia|by exists EmptyString|lia|reflexivity].
Defined.

(** X2. Invalid options make the constructor raise, and the message names
    the first invalid one in the order pages, file name, pause. *)
Theorem init_names_the_first_invalid_option (n : Z) (name : string) (pause : Z) :
  ((n < 2)%Z →
   __init__ n name pause
   = Raise (Exception "number_of_pages must be an integer superior to 1."))
  ∧ ((2 ≤ n)%Z → (¬ ∃ stem, name = stem +:+ ".csv") →
     __init__ n name pause = Raise (Exception "dataset_name must have a valid CSV name."))
  ∧ ((2 ≤ n)%Z → (∃ stem, name = stem +:+ ".csv") → (pause < 2)%Z →
     __init__ n name pause
     = Raise (Exception "human_pause must be an integer superior to 1.")).
Proof.
  unfold __init__. rewrite <- last_chars_csv. split_and!.
  - intros Hn. by rewrite bool_decide_eq_true_2.
  - intros Hn Hname. rewrite bool_decide_eq_false_2 by lia.
    by destruct (String.eqb (last_chars 4 name) ".csv").
  - intros Hn -> Hp. rewrite bool_decide_eq_false_2 by lia. cbn [negb].
    by rewrite bool_decide_eq_true_2.
Qed.

Lemma init_names_the_first_invalid_option_witness :
  __init__ 1 "movies.txt" 0
  = Raise (Exception "number_of_pages must be an integer superior to 1.")
  ∧ __init__ 50 "movies.csv.bak" 0
    = Raise (Exception "dataset_name must have a valid CSV name.")
  ∧ __init__ 50 "movies.csv" 1
    = Raise (Exception "human_pause must be an integer superior to 1.").
Proof.
  split_and!.
  - apply (proj1 (init_names_the_first_invalid_option 1 "movies.txt" 0)). lia.
  - apply (proj1 (proj2 (init_names_the_first_invalid_option 50 "movies.csv.bak" 0)));
      [lia|].
    rewrite <- last_chars_csv. by vm_compute.
  - apply (proj2 (proj2 (init_names_the_first_invalid_option 50 "movies.csv" 1)));
      [lia|by exists "movies"|lia].
Defined.

End InitFacts.

(** ** The field rules at their edges *)

Module RuleEdges.
Import Py Bs4 Scraper Samples StrFacts StripFacts RuleFacts.

Lemma run_rule_release_date movie :
  run_rule "release_date" movie = _get_movie_release_date movie.
Proof. reflexivity. Qed.
Lemma run_rule_duration movie : run_rule "duration" movie = _get_movie_duration movie.
Proof. reflexivity. Qed.
Lemma run_rule_directors movie : run_rule "directors" movie = _get_movie_directors movie.
Proof. reflexivity. Qed.
Lemma run_rule_summary movie : run_rule "summary" movie = _get_movie_summary movie.
Proof. reflexivity. Qed.

(** X3. The title, the release date and the summary are missing exactly
    when their container is not found. When it is found the field is its
    text without the white space around it: the value neither starts nor
    ends with a white space character, and a container that holds white
    space only gives the empty string, not the missing marker. *)
Theorem text_fields_are_stripped (movie : node) (info : string) (sel : selector) :
  (info, sel) ∈ [("title", sel_content_title); ("release_date", sel_date);
                 ("summary", sel_synopsis)] →
  (scraped_info movie info = None ↔ find sel movie = None)
  ∧ ∀ e : element,
      find sel movie = Some e →
      scraped_info movie info = Some (PStr (strip (text (fst e))))
      ∧ (∀ c s', strip (text (fst e)) = String c s' → isspace c = false)
      ∧ (∀ s' c, strip (text (fst e)) = s' +:+ String c EmptyString → isspace c = false)
      ∧ (all_chars isspace (text (fst e)) = true →
         scraped_info movie info = Some (PStr EmptyString)).
Proof.
  intros Hin.
  assert (scraped_info movie info
          = match find sel movie with
            | Some e => Some (PStr (strip (text (fst e))))
            | None => None
            end) as Hinfo.
  { unfold scraped_info.
    apply elem_of_cons in Hin as [[= -> ->]|Hin].
    { rewrite run_rule_title. unfold _get_movie_title.
      by destruct (find sel_content_title movie). }
    apply elem_of_cons in Hin as [[= -> ->]|Hin].
    { rewrite run_rule_release_date. unfold _get_movie_release_date.
      by destruct (find sel_date movie). }
    apply elem_of_cons in Hin as [[= -> ->]|Hin].
    { rewrite run_rule_summary. unfold _get_movie_summary.
      by destruct (find sel_synopsis movie). }
    by apply elem_of_nil in Hin. }
  rewrite Hinfo. split.
  - by destruct (find sel movie).
  - intros e ->. split_and!.
    + done.
    + apply strip_head.
    + apply strip_last.
    + intros Hspaces. by rewrite strip_spaces.
Qed.

Lemma text_fields_are_stripped_witness :
  scraped_info card_blank_title "title" = Some (PStr EmptyString)
  ∧ scraped_info card_blank_title "summary" = Some (PStr "Two men.")
  ∧ scraped_info card_blank_title "release_date" = None.
Proof.
  split_and!.
  - refine (proj2 (proj2 (proj2 (proj2 (text_fields_are_stripped card_blank_title
      "title" sel_content_title _)
      (Tag "div" (cls ["content-title"]) [NavigableString "   "],
       [Tag "div" (cls ["synopsis"]) [NavigableString "  Two men.  "]]) _))) _).
    + apply list_elem_of_here.
    + reflexivity.
    + reflexivity.
  - refine (proj1 (proj2 (text_fields_are_stripped card_blank_title
      "summary" sel_synopsis _)
      (Tag "div" (cls ["synopsis"]) [NavigableString "  Two men.  "], []) _)).
    + apply list_elem_of_further, list_elem_of_further, list_elem_of_here.
    + reflexivity.
  - refine (proj2 (proj1 (text_fields_are_stripped card_blank_title
      "release_date" sel_date _)) _).
    + apply list_elem_of_further, list_elem_of_here.
    + reflexivity.
Defined.

(** X4. The duration is read after the first spacer of the card only. It
    is the stripped text of the string that follows this spacer; it is
    missing when the card has no spacer, when the spacer is the last node
    of its parent, and when a tag without a [strip] element below it
    follows. *)
Theorem duration_follows_the_first_spacer (movie : node) :
  (find sel_spacer movie = None → run_rule "duration" movie = Raise AttributeError)
  ∧ (∀ spacer : element,
       find sel_spacer movie = Some spacer →
       (snd spacer = [] → run_rule "duration" movie = Raise AttributeError)
       ∧ (∀ s rest, snd spacer = NavigableString s :: rest →
            scraped_info movie "duration" = Some (PStr (strip s)))
       ∧ (∀ name attrs cs rest,
            snd spacer = Tag name attrs cs :: rest →
            find (Selector ["strip"] None) (Tag name attrs cs) = None →
            run_rule "duration" movie = Raise TypeError)).
Proof.
  unfold scraped_info. rewrite !run_rule_duration.
  unfold _get_movie_duration. split.
  - by intros ->.
  - intros spacer ->. cbn. unfold next_sibling. split_and!.
    + by intros ->.
    + by intros s rest ->.
    + intros name attrs cs rest -> Hstrip. cbn. by rewrite Hstrip.
Qed.

Lemma duration_follows_the_first_spacer_witness :
  scraped_info card_spaced "duration" = Some (PStr "1h 30min")
  ∧ run_rule "duration" card_spacer_last = Raise AttributeError
  ∧ run_rule "duration" card_spacer_then_tag = Raise TypeError
  ∧ run_rule "duration" card_minimal = Raise AttributeError.
Proof.
  split_and!.
  - refine (proj1 (proj2 (proj2 (duration_follows_the_first_spacer card_spaced)
      (Tag "span" (cls ["spacer"]) [NavigableString "/"], _) _)) " 1h 30min " _ _);
      reflexivity.
  - refine (proj1 (proj2 (duration_follows_the_first_spacer card_spacer_last)
      (Tag "span" (cls ["spacer"]) [NavigableString "/"], []) _) _); reflexivity.
  - refine (proj2 (proj2 (proj2 (duration_follows_the_first_spacer card_spacer_then_tag)
      (Tag "span" (cls ["spacer"]) [NavigableString "/"], _) _))
      "span" (cls ["date"]) [NavigableString "2020"] [] _ _); reflexivity.
  - apply (proj1 (duration_follows_the_first_spacer card_minimal)). reflexivity.
Defined.

(** X5. The first rating block that carries the label decides alone: when
    it has no star-rating note the rule raises and the field is missing,
    whatever the blocks after it hold. *)
Theorem first_labelled_block_without_note (movie : node) (label info : string)
    (before : list element) (block : element) (after : list element) :
  (label, info) ∈ [("Presse", "press_rating"); ("Spectateurs", "spec_rating")] →
  find_all sel_rating_item movie = before ++ block :: after →
  Forall (λ r : element, contains label (text (fst r)) = false) before →
  contains label (text (fst block)) = true →
  find sel_note (fst block) = None →
  run_rule info movie = Raise AttributeError ∧ scraped_info movie info = None.
Proof.
  intros Hin Hblocks Hbefore Hlabel Hnote.
  assert (run_rule info movie = Raise AttributeError) as Hrun.
  { apply elem_of_cons in Hin as [[= -> ->]|Hin].
    { rewrite run_rule_press_rating. unfold _get_movie_press_rating.
      rewrite Hblocks, rating_loop_first by done. by rewrite Hnote. }
    apply elem_of_cons in Hin as [[= -> ->]|Hin].
    { rewrite run_rule_spec_rating. unfold _get_movie_spec_rating.
      rewrite Hblocks, rating_loop_first by done. by rewrite Hnote. }
    by apply elem_of_nil in Hin. }
  split; [done|]. unfold scraped_info. by rewrite Hrun.
Qed.

Lemma first_labelled_block_without_note_witness :
  run_rule "press_rating" card_note_lost = Raise AttributeError
  ∧ scraped_info card_note_lost "press_rating" = None.
Proof.
  apply (first_labelled_block_without_note card_note_lost "Presse" "press_rating" []
           (Tag "div" (cls ["rating-item"])
              [Tag "span" (cls ["rating-title"]) [NavigableString "Presse"]],
            [rating_block "Presse" "2.0"])
           [(rating_block "Presse" "2.0", [])]).
  - apply list_elem_of_here.
  - reflexivity.
  - constructor.
  - reflexivity.
  - reflexivity.
Defined.

(** X6. The two rating rules tell the blocks apart by their text only: a
    first rating block whose text contains both labels gives its note to
    the press rating and to the spectator rating alike. *)
Theorem block_with_both_labels (movie : node) (block : element)
    (after : list element) :
  find_all sel_rating_item movie = block :: after →
  contains "Presse" (text (fst block)) = true →
  contains "Spectateurs" (text (fst block)) = true →
  scraped_info movie "press_rating" = scraped_info movie "spec_rating"
  ∧ ∀ note, find sel_note (fst block) = Some note →
      scraped_info movie "spec_rating" = Some (PStr (text (fst note))).
Proof.
  intros Hblocks Hpress Hspec. unfold scraped_info.
  rewrite run_rule_press_rating, run_rule_spec_rating.
  unfold _get_movie_press_rating, _get_movie_spec_rating.
  rewrite Hblocks. cbn [rating_loop]. rewrite Hpress, Hspec.
  split; [done|]. by intros note ->.
Qed.

Lemma block_with_both_labels_witness :
  scraped_info card_both_labels "press_rating" = scraped_info card_both_labels "spec_rating"
  ∧ scraped_info card_both_labels "spec_rating" = Some (PStr "3.0").
Proof.
  destruct (block_with_both_labels card_both_labels
    (rating_block "Presse et Spectateurs" "3.0", [rating_block "Spectateurs" "4.0"])
    [(rating_block "Spectateurs" "4.0", [])] eq_refl eq_refl eq_refl) as [Hsame Hnote].
  split; [exact Hsame|].
  apply (Hnote (Tag "span" (cls ["stareval-note"]) [NavigableString "3.0"], [])).
  reflexivity.
Defined.

(** X7. The id rule fails in three ways, each caught as the missing
    marker: no title container, a container without a link, a link
    without an href. An href that holds no digit is not a failure: the
    id is then the empty string. *)
Theorem id_failures (movie : node) :
  (find sel_content_title movie = None → run_rule "id" movie = Raise AttributeError)
  ∧ (∀ div : element,
       find sel_content_title movie = Some div →
       (find (Selector ["a"] None) (fst div) = None →
        run_rule "id" movie = Raise TypeError)
       ∧ (∀ a : element,
            find (Selector ["a"] None) (fst div) = Some a →
            (getitem (fst a) "href" = Raise KeyError →
             run_rule "id" movie = Raise KeyError)
            ∧ (∀ href, getitem (fst a) "href" = Ok (AStr href) →
                 all_chars (λ c, negb (isdigit c)) href = true →
                 scraped_info movie "id" = Some (PStr EmptyString)))).
Proof.
  unfold scraped_info. rewrite run_rule_id. unfold _get_movie_id. split.
  - by intros ->.
  - intros div ->. cbn. split.
    + by intros ->.
    + intros a ->. cbn. split.
      * by intros ->.
      * intros href -> Hnone. cbn. by rewrite re_sub_nondigit_others.
Qed.

Lemma id_failures_witness :
  run_rule "id" card_no_blocks = Ok (Some (PStr "42"))
  ∧ run_rule "id" card_spaced = Raise AttributeError
  ∧ run_rule "id" card_no_link = Raise TypeError
  ∧ run_rule "id" card_minimal_no_href = Raise KeyError
  ∧ scraped_info card_no_digit "id" = Some (PStr EmptyString).
Proof.
  split_and!.
  - reflexivity.
  - apply (proj1 (id_failures card_spaced)). reflexivity.
  - refine (proj1 (proj2 (id_failures card_no_link)
      (Tag "div" (cls ["content-title"]) [NavigableString "Plain"], []) _) _);
      reflexivity.
  - refine (proj1 (proj2 (proj2 (id_failures card_minimal_no_href)
      (Tag "div" (cls ["content-title"])
         [Tag "a" (cls ["meta-title-link"]) [NavigableString "Other Movie"]], []) _)
      (Tag "a" (cls ["meta-title-link"]) [NavigableString "Other Movie"], []) _) _);
      reflexivity.
  - refine (proj2 (proj2 (proj2 (id_failures card_no_digit)
      (title_block "/film/unknown.html" "Nameless", []) _)
      (link "/film/unknown.html" "Nameless", []) _) "/film/unknown.html" _ _);
      reflexivity.
Defined.

End RuleEdges.

(** ** What a record can hold *)

Module RecordFacts.
Import Py Bs4 Scraper Samples RuleFacts RuleEdges.

Lemma method_names :
  fst <$> [ ("_get_movie_id", _get_movie_id);
        ("_get_movie_title", _get_movie_title);
        ("_get_movie_release_date", _get_movie_release_date);
        ("_get_movie_duration", _get_movie_duration);
        ("_get_movie_genres", _get_movie_genres);
        ("_get_movie_directors", _get_movie_directors);
        ("_get_movie_actors", _get_movie_actors);
        ("_get_movie_press_rating", _get_movie_press_rating);
        ("_get_movie_spec_rating", _get_movie_spec_rating);
        ("_get_movie_summary", _get_movie_summary) ]
  = (λ info, "_get_movie_" +:+ info) <$> movie_infos.
Proof. reflexivity. Qed.

Lemma unknown_method name :
  name ∉ movie_infos → methods !! ("_get_movie_" +:+ name) = None.
Proof.
  intros Hname. unfold methods. apply not_elem_of_list_to_map_1.
  rewrite method_names. intros Hin.
  apply list_elem_of_fmap in Hin as (info & Heq & Hinfo).
  apply (inj (String.app "_get_movie_")) in Heq. by subst info.
Qed.

(** X8. The method lookup of the card loop succeeds exactly for the ten
    declared field names. For any other name the lookup itself raises,
    the bare except clause swallows it, and the cell is the missing
    marker. *)
Theorem dispatch_reaches_the_ten_rules (name : string) :
  (is_Some (methods !! ("_get_movie_" +:+ name)) ↔ name ∈ movie_infos)
  ∧ (name ∉ movie_infos →
     ∀ movie, run_rule name movie = Raise AttributeError
              ∧ scraped_info movie name = None).
Proof.
  split.
  - split; [|apply movie_infos_resolve].
    intros Hsome. destruct (decide (name ∈ movie_infos)) as [|Hout]; [done|].
    rewrite (unknown_method name Hout) in Hsome. by destruct Hsome.
  - intros Hout movie. unfold scraped_info, run_rule, getattr_self.
    by rewrite (unknown_method name Hout).
Qed.

Lemma dispatch_reaches_the_ten_rules_witness :
  run_rule "rating" card_rated = Raise AttributeError
  ∧ scraped_info card_rated "rating" = None.
Proof.
  apply (proj2 (dispatch_reaches_the_ten_rules "rating")).
  apply (bool_decide_unpack _). by vm_compute.
Defined.

(** X9. The genres, the directors and the actors are missing exactly when
    their block is not found; with the block they are always a string,
    possibly empty. The directors are the texts of all the link-or-span
    elements of the block whose class ends with blue-link, none being
    dropped for its position. *)
Theorem list_fields_need_their_block (movie : node) (info : string) (sel : selector) :
  (info, sel) ∈ [("genres", sel_meta_info); ("directors", sel_direction);
                 ("actors", sel_actor)] →
  (scraped_info movie info = None ↔ find sel movie = None)
  ∧ (∀ block : element, find sel movie = Some block →
       ∃ s, run_rule info movie = Ok (Some (PStr s)))
  ∧ (∀ block : element, find sel_direction movie = Some block →
       scraped_info movie "directors"
       = Some (PStr (join ", " (texts (find_all sel_blue_link (fst block)))))).
Proof.
  intros Hin.
  assert (∃ f : element → string,
            run_rule info movie
            = match find sel movie with
              | Some block => Ok (Some (PStr (f block)))
              | None => Raise AttributeError
              end) as [f Hrun].
  { apply elem_of_cons in Hin as [[= -> ->]|Hin].
    { eexists (λ block, join ", " (texts (find_all sel_genre (fst block)))).
      rewrite run_rule_genres. unfold _get_movie_genres.
      by destruct (find sel_meta_info movie). }
    apply elem_of_cons in Hin as [[= -> ->]|Hin].
    { eexists (λ block, join ", " (texts (find_all sel_blue_link (fst block)))).
      rewrite run_rule_directors. unfold _get_movie_directors.
      by destruct (find sel_direction movie). }
    apply elem_of_cons in Hin as [[= -> ->]|Hin].
    { eexists (λ block, join ", " (tail (texts (find_all sel_a_span (fst block))))).
      rewrite run_rule_actors. unfold _get_movie_actors.
      by destruct (find sel_actor movie). }
    by apply elem_of_nil in Hin. }
  split_and!.
  - unfold scraped_info. rewrite Hrun. by destruct (find sel movie).
  - intros block Hblock. rewrite Hrun, Hblock. by eexists.
  - intros block Hblock. unfold scraped_info.
    rewrite run_rule_directors. unfold _get_movie_directors. by rewrite Hblock.
Qed.

Lemma list_fields_need_their_block_witness :
  scraped_info card_directed "directors" = Some (PStr "D, E")
  ∧ (scraped_info card_directed "genres" = None ↔ find sel_meta_info card_directed = None).
Proof.
  destruct (list_fields_need_their_block card_directed "directors" sel_direction)
    as (_ & _ & Hdirectors); [apply list_elem_of_further, list_elem_of_here|].
  destruct (list_fields_need_their_block card_directed "genres" sel_meta_info)
    as (Hgenres & _); [apply list_elem_of_here|].
  split; [|exact Hgenres].
  apply (Hdirectors
    (Tag "div" (cls ["meta-body-item"; "meta-body-direction"; "light"])
       [Tag "span" (cls ["light"]) [NavigableString "De"]; person "D"; person "E"], [])).
  reflexivity.
Defined.

Lemma rating_loop_value label blocks :
  (∃ e, rating_loop label blocks = Raise e)
  ∨ rating_loop label blocks = Ok None
  ∨ ∃ s, rating_loop label blocks = Ok (Some (PStr s)).
Proof.
  induction blocks as [|r blocks IH]; cbn [rating_loop]; [by right; left|].
  destruct (contains label (text (fst r))); [|done].
  destruct (find sel_note (fst r)) as [note|]; cbn.
  - right; right. by eexists.
  - left. by eexists.
Qed.

(** X10. Every field but the duration holds the missing marker or a
    string. The duration holds something else, the list of tags that a
    call to a tag returns, only when the node after the first spacer is a
    tag that has a [strip] element below it. *)
Theorem cells_are_strings_or_missing (movie : node) :
  (∀ info, info ∈ movie_infos → info ≠ "duration" →
     scraped_info movie info = None ∨ ∃ s, scraped_info movie info = Some (PStr s))
  ∧ (∀ l, scraped_info movie "duration" = Some (PResultSet l) →
       ∃ (spacer : element) (sibling : node) (found : element),
         find sel_spacer movie = Some spacer
         ∧ next_sibling spacer = Some sibling
         ∧ is_tag sibling = true
         ∧ find (Selector ["strip"] None) sibling = Some found
         ∧ l = call_tag (fst found)).
Proof.
  split.
  - intros info Hin Hne. unfold movie_infos in Hin. unfold scraped_info.
    repeat (apply elem_of_cons in Hin as [->|Hin]; [|]); try by apply elem_of_nil in Hin.
    + rewrite run_rule_id. unfold _get_movie_id.
      destruct (find sel_content_title movie) as [div|]; cbn; [|by left].
      destruct (find (Selector ["a"] None) (fst div)) as [a|]; cbn; [|by left].
      destruct (getitem (fst a) "href") as [[href|tokens]|e]; cbn; eauto.
    + rewrite run_rule_title. unfold _get_movie_title.
      destruct (find sel_content_title movie); cbn; eauto.
    + rewrite run_rule_release_date. unfold _get_movie_release_date.
      destruct (find sel_date movie); cbn; eauto.
    + done.
    + rewrite run_rule_genres. unfold _get_movie_genres.
      destruct (find sel_meta_info movie); cbn; eauto.
    + rewrite run_rule_directors. unfold _get_movie_directors.
      destruct (find sel_direction movie); cbn; eauto.
    + rewrite run_rule_actors. unfold _get_movie_actors.
      destruct (find sel_actor movie); cbn; eauto.
    + rewrite run_rule_press_rating. unfold _get_movie_press_rating.
      destruct (rating_loop_value "Presse" (find_all sel_rating_item movie))
        as [[e ->]|[->|[s ->]]]; eauto.
    + rewrite run_rule_spec_rating. unfold _get_movie_spec_rating.
      destruct (rating_loop_value "Spectateurs" (find_all sel_rating_item movie))
        as [[e ->]|[->|[s ->]]]; eauto.
    + rewrite run_rule_summary. unfold _get_movie_summary.
      destruct (find sel_synopsis movie); cbn; eauto.
  - intros l. unfold scraped_info. rewrite run_rule_duration.
    unfold _get_movie_duration.
    destruct (find sel_spacer movie) as [spacer|]; cbn; [|done].
    destruct (next_sibling spacer) as [sibling|] eqn:Hsibling; cbn; [|done].
    destruct sibling as [name attrs cs|s|s]; cbn; [|done..].
    destruct (find (Selector ["strip"] None) (Tag name attrs cs)) as [found|] eqn:Hfound;
      cbn; [|done].
    intros [= <-]. by exists spacer, (Tag name attrs cs), found.
Qed.

Lemma cells_are_strings_or_missing_witness :
  scraped_info card_full "genres" = None
  ∨ ∃ s, scraped_info card_full "genres" = Some (PStr s).
Proof.
  apply (proj1 (cells_are_strings_or_missing card_full)).
  - apply (bool_decide_unpack _). by vm_compute.
  - discriminate.
Defined.

End RecordFacts.

(** ** Whole runs of the driver *)

Module RunFacts.
Import Py Bs4 Scraper Samples CardFacts SinkFacts DriverFacts.

Lemma frame_eta df :
  columns df = movie_infos → df = {| columns := movie_infos; rows := rows df |}.
Proof. destruct df as [cols rws]. simpl. by intros ->. Qed.












(** X14. When the file cannot be opened, the page raises after its
    records have been appended: the frame has grown, the file system and
    the trace are as before, and the driver stops right after the
    request of that page. *)
Theorem failed_save_keeps_the_rows (w : world) (self : scraper) (st : state)
    (page : node) :
  columns (dataset st) = movie_infos →
  can_write w (csv_path self) = false →
  _parse_list_page w self st page
  = ({| dataset := {| columns := movie_infos;
                      rows := rows (dataset st) ++ extract page |};
        files := files st;
        trace := trace st |}, Raise OSError)
  ∧ ∀ k rest,
      requests_get w (page_url k) = Ok page →
      page_loop w self (k :: rest) st
      = ({| dataset := {| columns := movie_infos;
                          rows := rows (dataset st) ++ extract page |};
            files := files st;
            trace := trace st ++ [Get (page_url k)] |}, Raise OSError).
Proof.
  intros Hcols Hwrite.
  assert (∀ st0, columns (dataset st0) = movie_infos →
            _parse_list_page w self st0 page
            = ({| dataset := {| columns := movie_infos;
                                rows := rows (dataset st0) ++ extract page |};
                  files := files st0;
                  trace := trace st0 |}, Raise OSError)) as Hparse.
  { intros st0 Hcols0. unfold _parse_list_page.
    rewrite card_loop_total by (by rewrite Hcols0). by rewrite Hcols0, Hwrite. }
  split; [by apply Hparse|].
  intros k rest Hget. cbn [page_loop]. unfold _get_page. rewrite Hget.
  by rewrite Hparse.
Qed.

Lemma failed_save_keeps_the_rows_witness :
  snd (_parse_list_page (readonly_world page_two_cards) allocine initial_state
         page_two_cards) = Raise OSError
  ∧ len (dataset (fst (_parse_list_page (readonly_world page_two_cards) allocine
                         initial_state page_two_cards))) = 2.
Proof.
  destruct (failed_save_keeps_the_rows (readonly_world page_two_cards) allocine
              initial_state page_two_cards eq_refl eq_refl) as [Hparse _].
  rewrite Hparse. by split.
Defined.

(** X15. The frame belongs to the class, not to a scraper: when a second
    scraper parses a page after a first one, its file holds the records
    of the first as well, while the file of the first keeps the dump it
    had. *)
Theorem scrapers_share_one_frame (w : world) (self1 self2 : scraper) (st : state)
    (page1 page2 : node) :
  columns (dataset st) = movie_infos →
  can_write w (csv_path self1) = true →
  can_write w (csv_path self2) = true →
  csv_path self1 ≠ csv_path self2 →
  let st1 := fst (_parse_list_page w self1 st page1) in
  let st2 := fst (_parse_list_page w self2 st1 page2) in
  files st2 !! csv_path self2
  = Some (to_csv w {| columns := movie_infos;
                      rows := (rows (dataset st) ++ extract page1) ++ extract page2 |})
  ∧ files st2 !! csv_path self1
    = Some (to_csv w {| columns := movie_infos;
                        rows := rows (dataset st) ++ extract page1 |}).
Proof.
  intros Hcols Hwrite1 Hwrite2 Hpaths st1 st2. unfold st2, st1.
  rewrite (parse_list_page_ok w self1 st page1) by done. cbn [fst].
  rewrite parse_list_page_ok by done. cbn [fst files dataset rows]. split.
  - apply lookup_insert_eq.
  - rewrite lookup_insert_ne by done. apply lookup_insert_eq.
Qed.

Lemma scrapers_share_one_frame_witness :
  files (fst (_parse_list_page (one_page_world page_two_cards) other_scraper
    (fst (_parse_list_page (one_page_world page_two_cards) allocine initial_state
            (soup [card_full]))) (soup [card_minimal]))) !! "files/other.csv"
  = Some (to_csv (one_page_world page_two_cards) (frame_of [card_full; card_minimal])).
Proof.
  refine (proj1 (scrapers_share_one_frame (one_page_world page_two_cards)
    allocine other_scraper initial_state (soup [card_full]) (soup [card_minimal])
    _ _ _ _)); try reflexivity.
  discriminate.
Defined.

(** X16. No run requests a page twice: the URLs a run requests are those
    of distinct page numbers between 1 and N - 1, whether it ends
    normally or not. *)
Theorem run_requests_no_page_twice (w : world) (self : scraper) (st : state) :
  ∃ fetched : list Z,
    get_urls (trace (fst (start_scraping_movies w self st)))
    = get_urls (trace st) ++ (page_url <$> fetched)
    ∧ NoDup (page_url <$> fetched)
    ∧ Forall (λ k, (1 ≤ k < number_of_pages self)%Z) fetched.
Proof.
  unfold start_scraping_movies, range1.
  destruct (page_loop_requests w self (seqZ 1 (number_of_pages self - 1)) st)
    as (fetched & [rest Hrest] & Hurls).
  exists fetched. split_and!; [done| |].
  - apply (NoDup_fmap_2 _), (NoDup_app fetched rest). rewrite <- Hrest.
    apply NoDup_seqZ.
  - apply Forall_forall. intros k Hk.
    assert (k ∈ seqZ 1 (number_of_pages self - 1)) as Hin
      by (rewrite Hrest; apply elem_of_app; by left).
    apply elem_of_seqZ in Hin. lia.
Qed.

(** X17. A page on which no card is found adds no row, and the file is
    written all the same: it holds the dump of the frame as it was, which
    for the empty frame is the header line alone. *)
Theorem page_without_cards_still_saves (w : world) (self : scraper) (st : state)
    (page : node) :
  columns (dataset st) = movie_infos →
  can_write w (csv_path self) = true →
  find_all sel_card page = [] →
  let st' := fst (_parse_list_page w self st page) in
  dataset st' = dataset st
  ∧ files st' !! csv_path self = Some (to_csv w (dataset st))
  ∧ (rows (dataset st) = [] →
     files st' !! csv_path self
     = Some ("id,title,release_date,duration,genres,directors,actors,press_rating,spec_rating,summary"
             +:+ String Csv.newline EmptyString)).
Proof.
  intros Hcols Hwrite Hcards st'. unfold st'.
  rewrite parse_list_page_ok by done. cbv zeta. cbn [fst dataset files].
  unfold extract. rewrite Hcards. cbn [fmap list_fmap].
  rewrite (right_id_L [] (++)), <- (frame_eta (dataset st) Hcols).
  split_and!; [done|apply lookup_insert_eq|].
  intros Hrows. rewrite lookup_insert_eq. f_equal.
  unfold to_csv. rewrite Hcols, Hrows. by destruct (csv_quotes_cr w).
Qed.

Lemma page_without_cards_still_saves_witness :
  files (fst (_parse_list_page (one_page_world page_no_card) allocine initial_state
                page_no_card)) !! "files/allocine.csv"
  = Some ("id,title,release_date,duration,genres,directors,actors,press_rating,spec_rating,summary"
          +:+ String Csv.newline EmptyString).
Proof.
  refine (proj2 (proj2 (page_without_cards_still_saves (one_page_world page_no_card)
    allocine initial_state page_no_card _ _ _)) _); reflexivity.
Defined.

End RunFacts.
